(** * geoPulse: the geofence evaluation engine

    A shallow embedding of [app/internal/services/geolocation_service.py]
    together with the repository methods it calls
    ([app/internal/repository/postgresql/*.py]) and the ORM models it reads
    ([app/pkg/db/models/*.py]).

    - [Decimal] values are exact rationals ([Q]); Python [float]s are the
      kernel's binary64 floats ([PrimFloat]).
    - Python exceptions are an error type, and every service method runs in
      a state-and-exception monad over the [World]: the database tables, the
      Kafka topic, the Celery queue, the log and the number of clock reads.
    - What the service imports from outside the repository ([math],
      [shapely], [float(Decimal)], the Kafka broker, the Google Maps client,
      the wall clock) is a field of [Runtime]; every theorem holds for every
      runtime.
    - The calls the service does not guard are taken to succeed: a database
      statement executes, and [send_notification_task.delay] enqueues.  The
      calls it wraps in [try]/[except] (Kafka, Google Maps) may fail. *)

From Stdlib Require Import ZArith QArith Bool List String Ascii Floats Lia.
Import ListNotations.

Set Implicit Arguments.

(** ** Python values *)

Definition Decimal := Q.
Definition datetime := Z.

Inductive PyExc : Type :=
| TypeError
| ValueError
| AttributeError
| MultipleResultsFound
| LibraryError (msg : string).

Inductive PyResult (A : Type) : Type :=
| Ok (a : A)
| Raise (e : PyExc).

Arguments Ok {A} a.
Arguments Raise {A} e.

(** Truthiness of an [Optional[str]]: [None] and [""] are falsy. *)
Definition truthy_str (s : option string) : bool :=
  match s with
  | Some EmptyString => false
  | Some _ => true
  | None => false
  end.

(** Truthiness of an optional list: [None] and [[]] are falsy. *)
Definition truthy_list {A} (l : option (list A)) : bool :=
  match l with
  | Some (_ :: _) => true
  | _ => false
  end.

(** ** ORM models *)

Inductive GeofenceType := CIRCLE | POLYGON | RECTANGLE.
Inductive GeofenceStatus := ACTIVE | INACTIVE | ARCHIVED.
Inductive NotificationType := PUSH | TELEGRAM | SMS | EMAIL.
Inductive NotificationStatus := PENDING | SENT | FAILED | DELIVERED.
Inductive NotificationPriority := LOW | NORMAL | HIGH | URGENT.

(** [geofence.status.value != "active"] compares the enum's string value. *)
Definition status_value (s : GeofenceStatus) : string :=
  match s with
  | ACTIVE => "active"
  | INACTIVE => "inactive"
  | ARCHIVED => "archived"
  end.

Module Device.
Record t := mk {
  id : Z;
  device_id : string;
  fcm_token : option string;
  apns_token : option string;
  telegram_chat_id : option string;
  last_seen : option datetime
}.
End Device.

Module Geofence.
Record t := mk {
  id : Z;
  name : string;
  geofence_type : GeofenceType;
  center_latitude : option Decimal;
  center_longitude : option Decimal;
  radius_meters : option Decimal;
  polygon_coordinates : option (list (list Decimal));
  min_latitude : option Decimal;
  max_latitude : option Decimal;
  min_longitude : option Decimal;
  max_longitude : option Decimal;
  status : GeofenceStatus;
  notify_on_enter : bool;
  notify_on_exit : bool;
  notification_message : option string;
  enable_sound : bool;
  enable_push : bool;
  enable_telegram : bool
}.
End Geofence.

Module DeviceGeofence.
Record t := mk {
  id : Z;
  device_id : Z;
  geofence_id : Z;
  is_inside : bool;
  last_entered_at : option datetime;
  last_exited_at : option datetime
}.
End DeviceGeofence.

Module LocationCreate.
Record t := mk {
  device_id : string;
  latitude : Decimal;
  longitude : Decimal;
  altitude : option Decimal;
  accuracy : option Decimal;
  speed : option Decimal;
  heading : option Decimal;
  timestamp : datetime
}.
End LocationCreate.

Module Location.
Record t := mk {
  id : Z;
  device_id : Z;
  latitude : Decimal;
  longitude : Decimal;
  altitude : option Decimal;
  accuracy : option Decimal;
  speed : option Decimal;
  heading : option Decimal;
  address : option string;
  city : option string;
  country : option string;
  timestamp : datetime
}.
End Location.

(** The [location_data] dictionary [{"latitude": float, "longitude": float}]. *)
Record LocationData := {
  ld_latitude : float;
  ld_longitude : float
}.

Module NotificationCreate.
Record t := mk {
  device_id : string;
  notification_type : NotificationType;
  title : string;
  message : string;
  priority : NotificationPriority;
  enable_sound : bool;
  geofence_id : option Z;
  event_type : option string;
  location_data : option LocationData;
  scheduled_at : option datetime
}.
End NotificationCreate.

Module Notification.
Record t := mk {
  id : Z;
  device_id : Z;
  geofence_id : option Z;
  notification_type : NotificationType;
  title : string;
  message : string;
  priority : NotificationPriority;
  enable_sound : bool;
  status : NotificationStatus;
  event_type : option string;
  location_data : option LocationData;
  scheduled_at : option datetime
}.
End Notification.

(** The keyword arguments of one [send_notification_task.delay(...)]. *)
Record CeleryTask := {
  task_notification_id : Z;
  task_device_id : string;
  task_notification_type : string;
  task_title : string;
  task_message : string;
  task_fcm_token : option string;
  task_telegram_chat_id : option string;
  task_enable_sound : bool;
  task_location_data : LocationData
}.

(** One message handed to [AIOKafkaProducer.send]. *)
Record KafkaEvent := {
  ev_topic : string;
  ev_event_type : string;
  ev_timestamp : datetime;
  ev_device_id : string;
  ev_geofence_id : option Z;
  ev_location : LocationData;
  ev_sample_timestamp : option datetime;
  ev_key : string
}.

Inductive LogLevel := DEBUG | WARNING | ERROR.

Record AddressInfo := {
  formatted_address : option string;
  component_city : option string;
  component_country : option string
}.

(** ** What the service imports from outside the repository *)

Record Runtime := {
  (** [float(d)] for a [Decimal] [d] *)
  float_of_decimal : Decimal -> float;
  (** [a - b] on [Decimal]s, rounded by the active decimal context *)
  decimal_sub : Decimal -> Decimal -> Decimal;
  (** [math.radians], [math.cos], [math.sin], [math.asin], [math.sqrt] *)
  math_radians : float -> PyResult float;
  math_cos : float -> PyResult float;
  math_sin : float -> PyResult float;
  math_asin : float -> PyResult float;
  math_sqrt : float -> PyResult float;
  (** [x ** y] on floats *)
  float_pow : float -> float -> PyResult float;
  (** [Polygon(vertices).contains(Point(x, y))] of shapely *)
  shapely_polygon_contains : list (float * float) -> float * float -> PyResult bool;
  (** successive readings of [datetime.now(timezone.utc)] *)
  clock : nat -> datetime;
  (** [KafkaProducer.producer] is set, the topic prefix of the settings, and
      the outcome of [AIOKafkaProducer.send] *)
  kafka_producer_started : bool;
  kafka_topics_prefix : string;
  kafka_broker_send : KafkaEvent -> PyResult unit;
  (** [GoogleMapsClient.client] is set, and what [reverse_geocode] returns *)
  google_maps_client : bool;
  google_maps_reverse_geocode : Decimal -> Decimal -> PyResult (option AddressInfo)
}.

(** ** The world and the monad of the service *)

Record World := {
  devices : list Device.t;
  geofences : list Geofence.t;
  device_geofences : list DeviceGeofence.t;
  locations : list Location.t;
  notifications : list Notification.t;
  celery_queue : list CeleryTask;
  kafka_topic : list KafkaEvent;
  log : list (LogLevel * string);
  clock_reads : nat
}.

Definition M (A : Type) : Type := World -> PyResult A * World.

Definition ret {A} (a : A) : M A := fun w => (Ok a, w).

Definition bind {A B} (m : M A) (k : A -> M B) : M B :=
  fun w =>
    match m w with
    | (Ok a, w') => k a w'
    | (Raise e, w') => (Raise e, w')
    end.

Definition raise {A} (e : PyExc) : M A := fun w => (Raise e, w).

(** [try: body except Exception as e: handler(e)] *)
Definition try_except {A} (body : M A) (handler : PyExc -> M A) : M A :=
  fun w =>
    match body w with
    | (Ok a, w') => (Ok a, w')
    | (Raise e, w') => handler e w'
    end.

Definition lift {A} (r : PyResult A) : M A := fun w => (r, w).

Declare Scope py_scope.
Delimit Scope py_scope with py.
Notation "x <- m ;; k" := (bind m (fun x => k))
  (at level 61, m at next level, right associativity) : py_scope.
Notation "m ;;; k" := (bind m (fun _ => k))
  (at level 61, right associativity) : py_scope.
Open Scope py_scope.

(** The same sequencing for pure computations that may raise. *)
Definition rbind {A B} (r : PyResult A) (k : A -> PyResult B) : PyResult B :=
  match r with
  | Ok a => k a
  | Raise e => Raise e
  end.

Notation "x <~ r ;; k" := (rbind r (fun x => k))
  (at level 61, r at next level, right associativity) : py_scope.

(** ** Geometry ([geolocation_service.py], lines 26-70) *)

(** [a <= b] on values that may be [None]: comparing [None] with a
    [Decimal] raises [TypeError]. *)
Definition py_le (a b : option Decimal) : PyResult bool :=
  match a, b with
  | Some x, Some y => Ok (Qle_bool x y)
  | _, _ => Raise TypeError
  end.

(** [min_lat <= lat <= max_lat and min_lon <= lon <= max_lon]: chained
    comparisons and [and] stop at the first false operand. *)
Definition point_in_rectangle (lat lon : Decimal)
    (min_lat max_lat min_lon max_lon : option Decimal) : PyResult bool :=
  b1 <~ py_le min_lat (Some lat) ;;
  if negb b1 then Ok false else
  b2 <~ py_le (Some lat) max_lat ;;
  if negb b2 then Ok false else
  b3 <~ py_le min_lon (Some lon) ;;
  if negb b3 then Ok false else
  py_le (Some lon) max_lon.

(** [for lat, lon in polygon_coords]: unpacking needs exactly two items. *)
Definition unpack_pair (c : list Decimal) : PyResult (Decimal * Decimal) :=
  match c with
  | [lat; lon] => Ok (lat, lon)
  | _ => Raise ValueError
  end.

Section Geometry.
Variable rt : Runtime.

(** [float(x)]; [float(None)] raises [TypeError]. *)
Definition py_float (x : option Decimal) : PyResult float :=
  match x with
  | Some d => Ok (float_of_decimal rt d)
  | None => Raise TypeError
  end.

(** [a - b]; [None] on either side raises [TypeError]. *)
Definition py_sub (a b : option Decimal) : PyResult Decimal :=
  match a, b with
  | Some x, Some y => Ok (decimal_sub rt x y)
  | _, _ => Raise TypeError
  end.

Definition haversine_distance (lat1 lon1 lat2 lon2 : option Decimal)
    : PyResult float :=
  let R := 6371000%float in
  f1 <~ py_float lat1 ;;
  lat1_rad <~ math_radians rt f1 ;;
  f2 <~ py_float lat2 ;;
  lat2_rad <~ math_radians rt f2 ;;
  dlat <~ py_sub lat2 lat1 ;;
  delta_lat <~ math_radians rt (float_of_decimal rt dlat) ;;
  dlon <~ py_sub lon2 lon1 ;;
  delta_lon <~ math_radians rt (float_of_decimal rt dlon) ;;
  s1 <~ math_sin rt (delta_lat / 2)%float ;;
  p1 <~ float_pow rt s1 2%float ;;
  c1 <~ math_cos rt lat1_rad ;;
  c2 <~ math_cos rt lat2_rad ;;
  s2 <~ math_sin rt (delta_lon / 2)%float ;;
  p2 <~ float_pow rt s2 2%float ;;
  let a := (p1 + c1 * c2 * p2)%float in
  q <~ math_sqrt rt a ;;
  h <~ math_asin rt q ;;
  let c := (2 * h)%float in
  Ok (R * c)%float.

Fixpoint polygon_vertices (polygon_coords : list (list Decimal))
    : PyResult (list (float * float)) :=
  match polygon_coords with
  | [] => Ok []
  | c :: rest =>
      p <~ unpack_pair c ;;
      let v := (float_of_decimal rt (snd p), float_of_decimal rt (fst p)) in
      vs <~ polygon_vertices rest ;;
      Ok (v :: vs)
  end.

Definition point_in_polygon (lat lon : Decimal)
    (polygon_coords : list (list Decimal)) : PyResult bool :=
  let point := (float_of_decimal rt lon, float_of_decimal rt lat) in
  vs <~ polygon_vertices polygon_coords ;;
  shapely_polygon_contains rt vs point.

Definition point_in_circle (lat lon : Decimal)
    (center_lat center_lon radius_meters : option Decimal) : PyResult bool :=
  distance <~ haversine_distance (Some lat) (Some lon) center_lat center_lon ;;
  r <~ py_float radius_meters ;;
  Ok (distance <=? r)%float.

(** Lines 160-180 of [check_geofences]: the [is_inside] of one geofence. *)
Definition compute_is_inside (geofence : Geofence.t)
    (latitude longitude : Decimal) : PyResult bool :=
  match Geofence.geofence_type geofence with
  | CIRCLE =>
      point_in_circle latitude longitude
        (Geofence.center_latitude geofence)
        (Geofence.center_longitude geofence)
        (Geofence.radius_meters geofence)
  | POLYGON =>
      if truthy_list (Geofence.polygon_coordinates geofence) then
        match Geofence.polygon_coordinates geofence with
        | Some polygon_coords => point_in_polygon latitude longitude polygon_coords
        | None => Ok false
        end
      else Ok false
  | RECTANGLE =>
      point_in_rectangle latitude longitude
        (Geofence.min_latitude geofence)
        (Geofence.max_latitude geofence)
        (Geofence.min_longitude geofence)
        (Geofence.max_longitude geofence)
  end.
End Geometry.

(** ** World updates *)

Definition set_devices (f : list Device.t -> list Device.t) (w : World) : World :=
  {| devices := f (devices w); geofences := geofences w;
     device_geofences := device_geofences w; locations := locations w;
     notifications := notifications w; celery_queue := celery_queue w;
     kafka_topic := kafka_topic w; log := log w; clock_reads := clock_reads w |}.

Definition set_device_geofences
    (f : list DeviceGeofence.t -> list DeviceGeofence.t) (w : World) : World :=
  {| devices := devices w; geofences := geofences w;
     device_geofences := f (device_geofences w); locations := locations w;
     notifications := notifications w; celery_queue := celery_queue w;
     kafka_topic := kafka_topic w; log := log w; clock_reads := clock_reads w |}.

Definition set_locations (f : list Location.t -> list Location.t) (w : World) : World :=
  {| devices := devices w; geofences := geofences w;
     device_geofences := device_geofences w; locations := f (locations w);
     notifications := notifications w; celery_queue := celery_queue w;
     kafka_topic := kafka_topic w; log := log w; clock_reads := clock_reads w |}.

Definition set_notifications
    (f : list Notification.t -> list Notification.t) (w : World) : World :=
  {| devices := devices w; geofences := geofences w;
     device_geofences := device_geofences w; locations := locations w;
     notifications := f (notifications w); celery_queue := celery_queue w;
     kafka_topic := kafka_topic w; log := log w; clock_reads := clock_reads w |}.

Definition set_celery_queue (f : list CeleryTask -> list CeleryTask) (w : World) : World :=
  {| devices := devices w; geofences := geofences w;
     device_geofences := device_geofences w; locations := locations w;
     notifications := notifications w; celery_queue := f (celery_queue w);
     kafka_topic := kafka_topic w; log := log w; clock_reads := clock_reads w |}.

Definition set_kafka_topic (f : list KafkaEvent -> list KafkaEvent) (w : World) : World :=
  {| devices := devices w; geofences := geofences w;
     device_geofences := device_geofences w; locations := locations w;
     notifications := notifications w; celery_queue := celery_queue w;
     kafka_topic := f (kafka_topic w); log := log w; clock_reads := clock_reads w |}.

Definition set_log (f : list (LogLevel * string) -> list (LogLevel * string))
    (w : World) : World :=
  {| devices := devices w; geofences := geofences w;
     device_geofences := device_geofences w; locations := locations w;
     notifications := notifications w; celery_queue := celery_queue w;
     kafka_topic := kafka_topic w; log := f (log w); clock_reads := clock_reads w |}.

Definition set_clock_reads (f : nat -> nat) (w : World) : World :=
  {| devices := devices w; geofences := geofences w;
     device_geofences := device_geofences w; locations := locations w;
     notifications := notifications w; celery_queue := celery_queue w;
     kafka_topic := kafka_topic w; log := log w; clock_reads := f (clock_reads w) |}.

Definition get_world : M World := fun w => (Ok w, w).
Definition modify (f : World -> World) : M unit := fun w => (Ok tt, f w).

(** [logger.warning(...)], [logger.error(...)], [logger.debug(...)] *)
Definition logger (level : LogLevel) (msg : string) : M unit :=
  modify (set_log (fun l => l ++ [(level, msg)])).

(** [result.scalar_one_or_none()] *)
Definition scalar_one_or_none {A} (rows : list A) : PyResult (option A) :=
  match rows with
  | [] => Ok None
  | [r] => Ok (Some r)
  | _ => Raise MultipleResultsFound
  end.

(** The next value of an autoincrement primary key. *)
Definition next_id (ids : list Z) : Z :=
  (1 + fold_right Z.max 0 ids)%Z.

(** [for x in xs: body(x)] *)
Fixpoint for_each {A} (xs : list A) (body : A -> M unit) : M unit :=
  match xs with
  | [] => ret tt
  | x :: rest => body x ;;; for_each rest body
  end.

Definition exc_str (e : PyExc) : string :=
  match e with
  | TypeError => "TypeError"
  | ValueError => "ValueError"
  | AttributeError => "AttributeError"
  | MultipleResultsFound => "MultipleResultsFound"
  | LibraryError msg => msg
  end.

(** The state change of one evaluation, read off the two nested tests
    [if is_inside != previous_state: if is_inside: ... else: ...]
    of [check_geofences] (lines 184-185, 218). *)
Inductive TransitionKind := Entered | Exited | Unchanged.

Definition detect_transition (previous_state is_inside : bool) : TransitionKind :=
  if negb (Bool.eqb is_inside previous_state) then
    if is_inside then Entered else Exited
  else Unchanged.

(** [datetime.now(timezone.utc)] / [datetime.utcnow()]: the next reading of
    the clock. *)
Definition datetime_now (rt : Runtime) : M datetime :=
  fun w => (Ok (clock rt (clock_reads w)), set_clock_reads S w).

(** ** Repositories ([app/internal/repository/postgresql]) *)

Module DeviceRepository.
Definition read_by_device_id (device_id : string) : M (option Device.t) :=
  w <- get_world ;;
  lift (scalar_one_or_none
          (filter (fun d => String.eqb (Device.device_id d) device_id) (devices w))).

Definition read_by_id (device_id : Z) : M (option Device.t) :=
  w <- get_world ;;
  lift (scalar_one_or_none
          (filter (fun d => Z.eqb (Device.id d) device_id) (devices w))).

Definition update_last_seen (rt : Runtime) (device_id : string) : M unit :=
  now <- datetime_now rt ;;
  modify (set_devices (map (fun d =>
    if String.eqb (Device.device_id d) device_id
    then Device.mk (Device.id d) (Device.device_id d) (Device.fcm_token d)
           (Device.apns_token d) (Device.telegram_chat_id d) (Some now)
    else d))).
End DeviceRepository.

Module LocationRepository.
Definition create (device_db_id : Z) (location_data : LocationCreate.t)
    : M Location.t :=
  w <- get_world ;;
  let location :=
    Location.mk (next_id (map Location.id (locations w))) device_db_id
      (LocationCreate.latitude location_data)
      (LocationCreate.longitude location_data)
      (LocationCreate.altitude location_data)
      (LocationCreate.accuracy location_data)
      (LocationCreate.speed location_data)
      (LocationCreate.heading location_data)
      None None None
      (LocationCreate.timestamp location_data) in
  modify (set_locations (fun l => l ++ [location])) ;;;
  ret location.

Definition update_address (location_id : Z) (address : string)
    (city country : option string) : M unit :=
  modify (set_locations (map (fun l =>
    if Z.eqb (Location.id l) location_id
    then Location.mk (Location.id l) (Location.device_id l)
           (Location.latitude l) (Location.longitude l) (Location.altitude l)
           (Location.accuracy l) (Location.speed l) (Location.heading l)
           (Some address) city country (Location.timestamp l)
    else l))).
(** [order_by(desc(Location.timestamp)).limit(1)] over the rows of the
    device: a row with the greatest timestamp (of several, the first in
    table order), and [None] when the device has no row.  With
    [limit(1)], [scalar_one_or_none] cannot raise. *)
Fixpoint latest (rows : list Location.t) : option Location.t :=
  match rows with
  | [] => None
  | l :: rest =>
      match latest rest with
      | None => Some l
      | Some m =>
          if Z.ltb (Location.timestamp l) (Location.timestamp m)
          then Some m else Some l
      end
  end.

Definition read_latest_by_device_id (device_db_id : Z) : M (option Location.t) :=
  w <- get_world ;;
  ret (latest (filter (fun l => Z.eqb (Location.device_id l) device_db_id)
                 (locations w))).
End LocationRepository.

Module GeofenceRepository.
Definition read_by_id (geofence_id : Z) : M (option Geofence.t) :=
  w <- get_world ;;
  lift (scalar_one_or_none
          (filter (fun g => Z.eqb (Geofence.id g) geofence_id) (geofences w))).
End GeofenceRepository.

Module DeviceGeofenceRepository.
(** The [where] clause shared by [get_or_create] and [update_state]. *)
Definition matches (device_id geofence_id : Z) (dg : DeviceGeofence.t) : bool :=
  Z.eqb (DeviceGeofence.device_id dg) device_id
  && Z.eqb (DeviceGeofence.geofence_id dg) geofence_id.

Definition get_or_create (device_id geofence_id : Z) : M DeviceGeofence.t :=
  w <- get_world ;;
  device_geofence <- lift (scalar_one_or_none
    (filter (matches device_id geofence_id) (device_geofences w))) ;;
  match device_geofence with
  | Some dg => ret dg
  | None =>
      let dg :=
        DeviceGeofence.mk (next_id (map DeviceGeofence.id (device_geofences w)))
          device_id geofence_id false None None in
      modify (set_device_geofences (fun l => l ++ [dg])) ;;;
      ret dg
  end.

(** [update_data]: [is_inside] always, a timestamp only when it was passed
    (a [datetime] is truthy). *)
Definition apply_update (is_inside : bool) (entered_at exited_at : option datetime)
    (dg : DeviceGeofence.t) : DeviceGeofence.t :=
  DeviceGeofence.mk (DeviceGeofence.id dg) (DeviceGeofence.device_id dg)
    (DeviceGeofence.geofence_id dg) is_inside
    (match entered_at with
     | Some t => Some t
     | None => DeviceGeofence.last_entered_at dg
     end)
    (match exited_at with
     | Some t => Some t
     | None => DeviceGeofence.last_exited_at dg
     end).

Definition update_state (device_id geofence_id : Z) (is_inside : bool)
    (entered_at exited_at : option datetime) : M (option DeviceGeofence.t) :=
  device_geofence <- get_or_create device_id geofence_id ;;
  modify (set_device_geofences (map (fun dg =>
    if matches device_id geofence_id dg
    then apply_update is_inside entered_at exited_at dg
    else dg))) ;;;
  ret (Some (apply_update is_inside entered_at exited_at device_geofence)).

Definition get_by_device_id (device_id : Z) : M (list DeviceGeofence.t) :=
  w <- get_world ;;
  ret (filter (fun dg => Z.eqb (DeviceGeofence.device_id dg) device_id)
         (device_geofences w)).
End DeviceGeofenceRepository.

Module NotificationRepository.
Definition create (device_db_id : Z) (notification_data : NotificationCreate.t)
    : M Notification.t :=
  w <- get_world ;;
  let notification :=
    Notification.mk (next_id (map Notification.id (notifications w))) device_db_id
      (NotificationCreate.geofence_id notification_data)
      (NotificationCreate.notification_type notification_data)
      (NotificationCreate.title notification_data)
      (NotificationCreate.message notification_data)
      (NotificationCreate.priority notification_data)
      (NotificationCreate.enable_sound notification_data)
      PENDING
      (NotificationCreate.event_type notification_data)
      (NotificationCreate.location_data notification_data)
      (NotificationCreate.scheduled_at notification_data) in
  modify (set_notifications (fun l => l ++ [notification])) ;;;
  ret notification.
End NotificationRepository.

(** ** The Kafka producer ([app/pkg/clients/kafka_producer.py]) *)

Module KafkaProducer.
Definition send_event (rt : Runtime) (topic event_type : string)
    (device_id : string) (geofence_id : option Z) (location : LocationData)
    (sample_timestamp : option datetime) (key : string) : M unit :=
  if negb (kafka_producer_started rt) then
    logger WARNING "Kafka producer not started. Cannot send event."
  else
    try_except
      (let full_topic := (kafka_topics_prefix rt ++ "." ++ topic)%string in
       now <- datetime_now rt ;;
       let event :=
         {| ev_topic := full_topic; ev_event_type := event_type;
            ev_timestamp := now; ev_device_id := device_id;
            ev_geofence_id := geofence_id; ev_location := location;
            ev_sample_timestamp := sample_timestamp; ev_key := key |} in
       lift (kafka_broker_send rt event) ;;;
       modify (set_kafka_topic (fun l => l ++ [event])) ;;;
       logger DEBUG ("Sent event " ++ event_type ++ " to topic " ++ full_topic))
      (fun e =>
         logger ERROR ("Failed to send event to Kafka: " ++ exc_str e) ;;;
         raise e).

Definition send_location_event (rt : Runtime) (device_id : string)
    (location : LocationData) (timestamp : datetime) : M unit :=
  send_event rt "locations" "location.update" device_id None location
    (Some timestamp) device_id.

Definition send_geofence_event (rt : Runtime) (device_id : string)
    (geofence_id : Z) (event_type : string) (location : LocationData) : M unit :=
  send_event rt "geofences" ("geofence." ++ event_type) device_id
    (Some geofence_id) location None device_id.
End KafkaProducer.

(** ** The service ([GeolocationService], lines 73-336) *)

Section GeolocationService.
Variable rt : Runtime.

Definition location_dict (latitude longitude : Decimal) : LocationData :=
  {| ld_latitude := float_of_decimal rt latitude;
     ld_longitude := float_of_decimal rt longitude |}.

(** [title] and [message] of lines 264-267. *)
Definition notification_title (geofence : Geofence.t) : string :=
  ("Geofence: " ++ Geofence.name geofence)%string.

Definition notification_text (geofence : Geofence.t) (event_type : string) : string :=
  if truthy_str (Geofence.notification_message geofence) then
    match Geofence.notification_message geofence with
    | Some m => m
    | None => EmptyString
    end
  else
    ("Device "
       ++ (if String.eqb event_type "geofence_enter" then "entered" else "exited")
       ++ " geofence " ++ Geofence.name geofence)%string.

(** One channel of [send_geofence_notification]: the notification row and
    the queued Celery task. *)
Definition notify_channel (device_db_id : Z) (device : Device.t)
    (geofence : Geofence.t) (event_type : string) (latitude longitude : Decimal)
    (channel : NotificationType) (channel_name : string)
    (fcm telegram : option string) : M unit :=
  let title := notification_title geofence in
  let message := notification_text geofence event_type in
  let notification_data :=
    NotificationCreate.mk (Device.device_id device) channel title message HIGH
      (Geofence.enable_sound geofence) (Some (Geofence.id geofence))
      (Some event_type) (Some (location_dict latitude longitude)) None in
  notification <- NotificationRepository.create device_db_id notification_data ;;
  modify (set_celery_queue (fun q => q ++ [
    {| task_notification_id := Notification.id notification;
       task_device_id := Device.device_id device;
       task_notification_type := channel_name;
       task_title := title;
       task_message := message;
       task_fcm_token := fcm;
       task_telegram_chat_id := telegram;
       task_enable_sound := Geofence.enable_sound geofence;
       task_location_data := location_dict latitude longitude |}])).

Definition send_geofence_notification (device_db_id : Z) (geofence : Geofence.t)
    (event_type : string) (latitude longitude : Decimal) : M unit :=
  device <- DeviceRepository.read_by_id device_db_id ;;
  match device with
  | None => ret tt
  | Some device =>
      (if Geofence.enable_push geofence && truthy_str (Device.fcm_token device)
       then notify_channel device_db_id device geofence event_type
              latitude longitude PUSH "push" (Device.fcm_token device) None
       else ret tt) ;;;
      (if Geofence.enable_telegram geofence
          && truthy_str (Device.telegram_chat_id device)
       then notify_channel device_db_id device geofence event_type
              latitude longitude TELEGRAM "telegram" None
              (Device.telegram_chat_id device)
       else ret tt)
  end.

(** [device.device_id] inside the [try] of the Kafka publication: [device]
    may be [None]. *)
Definition publish_geofence_event (device : option Device.t) (geofence : Geofence.t)
    (event_type : string) (latitude longitude : Decimal) : M unit :=
  try_except
    (match device with
     | Some d =>
         KafkaProducer.send_geofence_event rt (Device.device_id d)
           (Geofence.id geofence) event_type (location_dict latitude longitude)
     | None => raise AttributeError
     end)
    (fun e =>
       logger ERROR ("Failed to publish geofence " ++ event_type ++ " event: "
                     ++ exc_str e)).

(** The effects of one transition (lines 184-249). *)
Definition handle_transition (device_db_id : Z) (device : option Device.t)
    (geofence : Geofence.t) (latitude longitude : Decimal)
    (kind : TransitionKind) : M unit :=
  match kind with
  | Unchanged => ret tt
  | Entered =>
      now <- datetime_now rt ;;
      DeviceGeofenceRepository.update_state device_db_id (Geofence.id geofence)
        true (Some now) None ;;;
      (if Geofence.notify_on_enter geofence
       then send_geofence_notification device_db_id geofence "geofence_enter"
              latitude longitude
       else ret tt) ;;;
      publish_geofence_event device geofence "enter" latitude longitude
  | Exited =>
      now <- datetime_now rt ;;
      DeviceGeofenceRepository.update_state device_db_id (Geofence.id geofence)
        false None (Some now) ;;;
      (if Geofence.notify_on_exit geofence
       then send_geofence_notification device_db_id geofence "geofence_exit"
              latitude longitude
       else ret tt) ;;;
      publish_geofence_event device geofence "exit" latitude longitude
  end.

(** The body of the [for] loop of [check_geofences] (lines 155-249). *)
Definition check_one (device_db_id : Z) (device : option Device.t)
    (latitude longitude : Decimal) (device_geofence : DeviceGeofence.t) : M unit :=
  geofence <- GeofenceRepository.read_by_id
                (DeviceGeofence.geofence_id device_geofence) ;;
  match geofence with
  | None => ret tt
  | Some geofence =>
      if negb (String.eqb (status_value (Geofence.status geofence)) "active")
      then ret tt
      else
        is_inside <- lift (compute_is_inside rt geofence latitude longitude) ;;
        let previous_state := DeviceGeofence.is_inside device_geofence in
        handle_transition device_db_id device geofence latitude longitude
          (detect_transition previous_state is_inside)
  end.

Definition check_geofences (device_db_id : Z) (latitude longitude : Decimal)
    : M unit :=
  device_geofences <- DeviceGeofenceRepository.get_by_device_id device_db_id ;;
  device <- DeviceRepository.read_by_id device_db_id ;;
  for_each device_geofences (check_one device_db_id device latitude longitude).

(** Lines 116-130: reverse geocoding when a Google Maps client exists. *)
Definition reverse_geocode_location (location : Location.t)
    (location_data : LocationCreate.t) : M unit :=
  if google_maps_client rt then
    try_except
      (address_info <- lift (google_maps_reverse_geocode rt
                               (LocationCreate.latitude location_data)
                               (LocationCreate.longitude location_data)) ;;
       match address_info with
       | Some info =>
           LocationRepository.update_address (Location.id location)
             (match formatted_address info with
              | Some a => a
              | None => EmptyString
              end)
             (component_city info) (component_country info)
       | None => ret tt
       end)
      (fun e => logger ERROR ("Failed to reverse geocode: " ++ exc_str e))
  else ret tt.

Definition process_location (device_id : string)
    (location_data : LocationCreate.t) : M unit :=
  device <- DeviceRepository.read_by_device_id device_id ;;
  match device with
  | None =>
      logger WARNING ("Device " ++ device_id
                      ++ " not found. Cannot process location.")
  | Some device =>
      DeviceRepository.update_last_seen rt device_id ;;;
      location <- LocationRepository.create (Device.id device) location_data ;;
      reverse_geocode_location location location_data ;;;
      try_except
        (KafkaProducer.send_location_event rt device_id
           (location_dict (LocationCreate.latitude location_data)
                          (LocationCreate.longitude location_data))
           (LocationCreate.timestamp location_data))
        (fun e => logger ERROR ("Failed to publish location event: " ++ exc_str e)) ;;;
      check_geofences (Device.id device)
        (LocationCreate.latitude location_data)
        (LocationCreate.longitude location_data)
  end.
End GeolocationService.

(** ** The location endpoint ([app/internal/routes/geolocation.py], lines 105-120) *)

(** What the endpoint hands to FastAPI: a response with its status code, an
    [HTTPException], or an exception it did not handle. *)
Inductive HttpResult (A : Type) : Type :=
| Response (status_code : Z) (body : A)
| HTTPException (status_code : Z) (detail : string)
| Unhandled (e : PyExc).

Arguments Response {A} status_code body.
Arguments HTTPException {A} status_code detail.
Arguments Unhandled {A} e.

Definition create_location (rt : Runtime) (location_data : LocationCreate.t)
    : World -> HttpResult Location.t * World :=
  fun w =>
    let failed := HTTPException 500 "Failed to create location" in
    match process_location rt (LocationCreate.device_id location_data)
            location_data w with
    | (Raise e, w1) => (Unhandled e, w1)
    | (Ok _, w1) =>
        match DeviceRepository.read_by_device_id
                (LocationCreate.device_id location_data) w1 with
        | (Raise e, w2) => (Unhandled e, w2)
        | (Ok None, w2) => (failed, w2)
        | (Ok (Some device), w2) =>
            match LocationRepository.read_latest_by_device_id (Device.id device) w2 with
            | (Raise e, w3) => (Unhandled e, w3)
            | (Ok None, w3) => (failed, w3)
            | (Ok (Some location), w3) => (Response 201 location, w3)
            end
        end
    end.

(** ** A concrete runtime and worlds for the scenarios

    Decimals with numerator and denominator below 2^53 convert to the
    correctly rounded quotient; the clock advances by one per reading; the
    Kafka producer is started and the broker accepts; there is no Google
    Maps client.  [math] and [shapely] have no counterpart in the kernel,
    so their calls raise: the scenarios use rectangles and never reach them. *)

Definition float_of_Z (z : Z) : float :=
  match z with
  | Z0 => 0%float
  | Zpos _ => PrimFloat.of_uint63 (Uint63.of_Z z)
  | Zneg p => (- PrimFloat.of_uint63 (Uint63.of_Z (Zpos p)))%float
  end.

Definition scenario_runtime : Runtime :=
  {| float_of_decimal :=
       fun d => (float_of_Z (Qnum d) / float_of_Z (Zpos (Qden d)))%float;
     decimal_sub := fun a b => Qred (a - b);
     math_radians := fun _ => Raise (LibraryError "math.radians");
     math_cos := fun _ => Raise (LibraryError "math.cos");
     math_sin := fun _ => Raise (LibraryError "math.sin");
     math_asin := fun _ => Raise (LibraryError "math.asin");
     math_sqrt := fun _ => Raise (LibraryError "math.sqrt");
     float_pow := fun _ _ => Raise (LibraryError "float.__pow__");
     shapely_polygon_contains := fun _ _ => Raise (LibraryError "shapely");
     clock := fun n => (1000 + Z.of_nat n)%Z;
     kafka_producer_started := true;
     kafka_topics_prefix := "geopulse";
     kafka_broker_send := fun _ => Ok tt;
     google_maps_client := false;
     google_maps_reverse_geocode := fun _ _ => Ok None |}.

Definition phone : Device.t :=
  Device.mk 1 "dev-1" (Some "fcm-token"%string) None None None.

(** A rectangle over latitudes 42..43 and longitudes 74..75. *)
Definition rectangle_fence (id : Z) (name : string)
    (notify_on_enter notify_on_exit : bool) : Geofence.t :=
  Geofence.mk id name RECTANGLE None None None None
    (Some (42 # 1)) (Some (43 # 1)) (Some (74 # 1)) (Some (75 # 1))
    ACTIVE notify_on_enter notify_on_exit None true true false.



Definition association (id geofence_id : Z) (is_inside : bool)
    (last_entered_at : option datetime) : DeviceGeofence.t :=
  DeviceGeofence.mk id 1 geofence_id is_inside last_entered_at None.

Definition scenario_world (fences : list Geofence.t)
    (associations : list DeviceGeofence.t) : World :=
  {| devices := [phone]; geofences := fences;
     device_geofences := associations; locations := [];
     notifications := []; celery_queue := []; kafka_topic := [];
     log := []; clock_reads := 0 |}.

Definition sample (device_id : string) (latitude longitude : Decimal)
    (timestamp : datetime) : LocationCreate.t :=
  LocationCreate.mk device_id latitude longitude None None None None timestamp.



(** ** Vocabulary of the statements *)

(** What [GeofenceRepository.read_by_id], [DeviceRepository.read_by_id] and
    [DeviceGeofenceRepository.get_by_device_id] return in a world. *)
Definition lookup_geofence (w : World) (geofence_id : Z) : PyResult (option Geofence.t) :=
  scalar_one_or_none (filter (fun g => Z.eqb (Geofence.id g) geofence_id) (geofences w)).

Definition lookup_device (w : World) (device_db_id : Z) : PyResult (option Device.t) :=
  scalar_one_or_none (filter (fun d => Z.eqb (Device.id d) device_db_id) (devices w)).

Definition associations_of (w : World) (device_db_id : Z) : list DeviceGeofence.t :=
  filter (fun dg => Z.eqb (DeviceGeofence.device_id dg) device_db_id) (device_geofences w).

(** What the loop body decides before it looks at the stored state: the
    geofence is skipped ([Ok None]), its containment test raises, or the
    test answers. *)
Definition evaluate (rt : Runtime) (w : World) (latitude longitude : Decimal)
    (geofence_id : Z) : PyResult (option (Geofence.t * bool)) :=
  geofence <~ lookup_geofence w geofence_id ;;
  match geofence with
  | None => Ok None
  | Some g =>
      if negb (String.eqb (status_value (Geofence.status g)) "active")
      then Ok None
      else
        is_inside <~ compute_is_inside rt g latitude longitude ;;
        Ok (Some (g, is_inside))
  end.


(** Everything but the Kafka topic, the log and the clock is untouched. *)
Definition same_database (w w' : World) : Prop :=
  devices w' = devices w /\ geofences w' = geofences w
  /\ device_geofences w' = device_geofences w /\ locations w' = locations w
  /\ notifications w' = notifications w /\ celery_queue w' = celery_queue w.







(** An association is settled when the loop body has nothing to do for it:
    its geofence is skipped, or evaluates to the stored [is_inside]. *)
Definition settled (rt : Runtime) (w : World) (latitude longitude : Decimal)
    (row : DeviceGeofence.t) : Prop :=
  match evaluate rt w latitude longitude (DeviceGeofence.geofence_id row) with
  | Ok None => True
  | Ok (Some (_, is_inside)) => DeviceGeofence.is_inside row = is_inside
  | Raise _ => False
  end.


(** Each (device, geofence) pair has at most one association row. *)
Definition pairs_unique (w : World) : Prop :=
  forall device_id geofence_id,
    (List.length (filter (DeviceGeofenceRepository.matches device_id geofence_id)
                    (device_geofences w)) <= 1)%nat.

(** The row [get_or_create] inserts for a pair that has none. *)
Definition fresh_association (w : World) (device_id geofence_id : Z)
    : DeviceGeofence.t :=
  DeviceGeofence.mk (next_id (map DeviceGeofence.id (device_geofences w)))
    device_id geofence_id false None None.

(** An association row keeps its keys, and is untouched when it belongs to
    another device. *)
Definition row_kept (device_db_id : Z) (old new : DeviceGeofence.t) : Prop :=
  DeviceGeofence.id new = DeviceGeofence.id old
  /\ DeviceGeofence.device_id new = DeviceGeofence.device_id old
  /\ DeviceGeofence.geofence_id new = DeviceGeofence.geofence_id old
  /\ (DeviceGeofence.device_id old <> device_db_id -> new = old).


(** Lines 116-130 of [process_location]: the address columns of the saved
    location after reverse geocoding. *)
Definition geocoded_address (rt : Runtime) (location_data : LocationCreate.t)
    : option string * option string * option string :=
  if google_maps_client rt then
    match google_maps_reverse_geocode rt
            (LocationCreate.latitude location_data)
            (LocationCreate.longitude location_data) with
    | Ok (Some info) =>
        (Some (match formatted_address info with
               | Some a => a
               | None => EmptyString
               end),
         component_city info, component_country info)
    | _ => (None, None, None)
    end
  else (None, None, None).

(** The location row [process_location] saves for a sample. *)
Definition saved_location (rt : Runtime) (w : World) (device : Device.t)
    (location_data : LocationCreate.t) : Location.t :=
  let '(address, city, country) := geocoded_address rt location_data in
  Location.mk (next_id (map Location.id (locations w))) (Device.id device)
    (LocationCreate.latitude location_data)
    (LocationCreate.longitude location_data)
    (LocationCreate.altitude location_data)
    (LocationCreate.accuracy location_data)
    (LocationCreate.speed location_data)
    (LocationCreate.heading location_data)
    address city country
    (LocationCreate.timestamp location_data).

(** What an evaluation for a device keeps: the tables it only reads, and the
    association rows up to the state of that device's rows. *)
Definition tables_kept (device_db_id : Z) (w w' : World) : Prop :=
  devices w' = devices w /\ geofences w' = geofences w
  /\ locations w' = locations w
  /\ Forall2 (row_kept device_db_id) (device_geofences w) (device_geofences w').

(** * Properties *)

(** ** Rectangles *)

Lemma py_le_some (a b : Decimal) : py_le (Some a) (Some b) = Ok (Qle_bool a b).
Proof. reflexivity. Qed.

Lemma point_in_rectangle_populated (lat lon min_lat max_lat min_lon max_lon : Decimal) :
  point_in_rectangle lat lon (Some min_lat) (Some max_lat) (Some min_lon) (Some max_lon)
  = Ok (Qle_bool min_lat lat && Qle_bool lat max_lat
        && Qle_bool min_lon lon && Qle_bool lon max_lon).
Proof.
  unfold point_in_rectangle; rewrite !py_le_some; cbn [rbind].
  destruct (Qle_bool min_lat lat); cbn; [| reflexivity].
  destruct (Qle_bool lat max_lat); cbn; [| reflexivity].
  destruct (Qle_bool min_lon lon); cbn; reflexivity.
Qed.

Lemma rectangle_test_iff (lat lon min_lat max_lat min_lon max_lon : Decimal) :
  Qle_bool min_lat lat && Qle_bool lat max_lat
    && Qle_bool min_lon lon && Qle_bool lon max_lon = true
  <-> (min_lat <= lat /\ lat <= max_lat /\ min_lon <= lon /\ lon <= max_lon)%Q.
Proof.
  rewrite !andb_true_iff, !Qle_bool_iff; tauto.
Qed.

(** C6. [point_in_rectangle] on populated bounds never raises and answers
    true exactly when [min_lat <= lat <= max_lat] and
    [min_lon <= lon <= max_lon], all four bounds inclusive; a point whose
    latitude equals [min_lat], with its longitude within the bounds of a
    non-empty rectangle, is inside. *)
Theorem point_in_rectangle_inclusive_bounds :
  forall lat lon min_lat max_lat min_lon max_lon : Decimal,
    let inside :=
      point_in_rectangle lat lon
        (Some min_lat) (Some max_lat) (Some min_lon) (Some max_lon) in
    let within :=
      (min_lat <= lat /\ lat <= max_lat /\ min_lon <= lon /\ lon <= max_lon)%Q in
    (inside = Ok true <-> within)
    /\ (inside = Ok false <-> ~ within)
    /\ (lat == min_lat -> min_lat <= max_lat ->
        min_lon <= lon -> lon <= max_lon -> inside = Ok true)%Q.
Proof.
  intros lat lon min_lat max_lat min_lon max_lon inside within.
  subst inside within.
  rewrite point_in_rectangle_populated.
  pose proof (rectangle_test_iff lat lon min_lat max_lat min_lon max_lon) as Hiff.
  destruct (Qle_bool min_lat lat && Qle_bool lat max_lat
            && Qle_bool min_lon lon && Qle_bool lon max_lon) eqn:E.
  - assert (Hw : (min_lat <= lat /\ lat <= max_lat
                  /\ min_lon <= lon /\ lon <= max_lon)%Q)
      by (apply Hiff; reflexivity).
    split; [| split].
    + split; intros _; [exact Hw | reflexivity].
    + split; intros H; [discriminate | contradiction].
    + intros; reflexivity.
  - assert (Hn : ~ (min_lat <= lat /\ lat <= max_lat
                    /\ min_lon <= lon /\ lon <= max_lon)%Q).
    { intro H. apply Hiff in H. discriminate. }
    split; [| split].
    + split; intros H; [discriminate | contradiction].
    + split; intros _; [exact Hn | reflexivity].
    + intros Heq Hne Hlo Hhi. exfalso. apply Hn. repeat split; try assumption.
      * rewrite Heq. apply Qle_refl.
      * rewrite Heq. assumption.
Qed.

Example rectangle_min_lat_boundary :
  point_in_rectangle 42 (745 # 10) (Some 42) (Some 43) (Some 74) (Some 75) = Ok true.
Proof. reflexivity. Qed.

Example rectangle_just_below_min_lat :
  point_in_rectangle (41999 # 1000) (745 # 10)
    (Some 42) (Some 43) (Some 74) (Some 75) = Ok false.
Proof. reflexivity. Qed.

(** The chained comparison stops at its first false operand, so a missing
    upper bound is only noticed for a point above the lower one. *)
Example rectangle_missing_max_latitude :
  point_in_rectangle 41 (745 # 10) (Some 42) None (Some 74) (Some 75) = Ok false
  /\ point_in_rectangle 42 (745 # 10) (Some 42) None (Some 74) (Some 75)
     = Raise TypeError.
Proof. split; reflexivity. Qed.

(** ** Circles *)






(** ** Reading the tables *)

Lemma read_geofence_by_id (w : World) (geofence_id : Z) :
  GeofenceRepository.read_by_id geofence_id w = (lookup_geofence w geofence_id, w).
Proof. reflexivity. Qed.

Lemma read_device_by_id (w : World) (device_db_id : Z) :
  DeviceRepository.read_by_id device_db_id w = (lookup_device w device_db_id, w).
Proof. reflexivity. Qed.

Lemma read_device_by_device_id (w : World) (device_id : string) :
  DeviceRepository.read_by_device_id device_id w
  = (scalar_one_or_none
       (filter (fun d => String.eqb (Device.device_id d) device_id) (devices w)), w).
Proof. reflexivity. Qed.

Lemma get_associations (w : World) (device_db_id : Z) :
  DeviceGeofenceRepository.get_by_device_id device_db_id w
  = (Ok (associations_of w device_db_id), w).
Proof. reflexivity. Qed.

Lemma check_one_evaluate (rt : Runtime) (device_db_id : Z) (device : option Device.t)
    (latitude longitude : Decimal) (row : DeviceGeofence.t) (w : World) :
  check_one rt device_db_id device latitude longitude row w =
  match evaluate rt w latitude longitude (DeviceGeofence.geofence_id row) with
  | Raise e => (Raise e, w)
  | Ok None => (Ok tt, w)
  | Ok (Some (g, is_inside)) =>
      handle_transition rt device_db_id device g latitude longitude
        (detect_transition (DeviceGeofence.is_inside row) is_inside) w
  end.
Proof.
  unfold check_one, evaluate, bind. rewrite read_geofence_by_id.
  destruct (lookup_geofence w (DeviceGeofence.geofence_id row)) as [[g |] | e];
    cbn; try reflexivity.
  destruct (negb (String.eqb (status_value (Geofence.status g)) "active"));
    cbn; try reflexivity.
  unfold lift.
  destruct (compute_is_inside rt g latitude longitude); reflexivity.
Qed.

Lemma status_active_iff (s : GeofenceStatus) :
  String.eqb (status_value s) "active" = true <-> s = ACTIVE.
Proof. destruct s; cbn; split; intros; congruence. Qed.

(** ** Transition detection *)

Lemma detect_transition_table (previous_state is_inside : bool) :
  detect_transition previous_state is_inside =
  match previous_state, is_inside with
  | false, true => Entered
  | true, false => Exited
  | _, _ => Unchanged
  end.
Proof. destruct previous_state, is_inside; reflexivity. Qed.

(** C7. The transition is Entered exactly for false -> true, Exited exactly
    for true -> false and Unchanged otherwise; and the loop body, run on an
    association whose Active geofence evaluates to the stored [is_inside],
    returns normally and leaves the whole world as it was: no row is
    updated, no notification row or task is created, no event is sent. *)
Theorem unchanged_transition_is_noop :
  forall (rt : Runtime) (device_db_id : Z) (device : option Device.t)
         (latitude longitude : Decimal) (row : DeviceGeofence.t)
         (geofence : Geofence.t) (is_inside : bool) (w : World),
    lookup_geofence w (DeviceGeofence.geofence_id row) = Ok (Some geofence) ->
    Geofence.status geofence = ACTIVE ->
    compute_is_inside rt geofence latitude longitude = Ok is_inside ->
    detect_transition (DeviceGeofence.is_inside row) is_inside = Unchanged ->
    (forall previous current : bool,
        (detect_transition previous current = Entered
         <-> previous = false /\ current = true)
        /\ (detect_transition previous current = Exited
            <-> previous = true /\ current = false)
        /\ (detect_transition previous current = Unchanged
            <-> previous = current))
    /\ handle_transition rt device_db_id device geofence latitude longitude
         Unchanged w = (Ok tt, w)
    /\ check_one rt device_db_id device latitude longitude row w = (Ok tt, w).
Proof.
  intros rt device_db_id device latitude longitude row geofence is_inside w
         Hlookup Hactive Hinside Hsame.
  split; [| split].
  - intros [|] [|]; cbn; repeat split; intros; try congruence;
      try (destruct H; congruence).
  - reflexivity.
  - rewrite check_one_evaluate. unfold evaluate. rewrite Hlookup. cbn [rbind].
    rewrite Hactive. cbn. rewrite Hinside. cbn [rbind]. rewrite Hsame. reflexivity.
Qed.

(** C7 at work: a sample outside a rectangle the device is not inside of. *)
Lemma unchanged_transition_is_noop_witness :
  let w := scenario_world [rectangle_fence 10 "Home" true true]
                          [association 1 10 false None] in
  check_one scenario_runtime 1 (Some phone) 0 0 (association 1 10 false None) w
  = (Ok tt, w).
Proof.
  intros w.
  apply (@unchanged_transition_is_noop scenario_runtime 1 (Some phone) 0 0
           (association 1 10 false None) (rectangle_fence 10 "Home" true true)
           false w); reflexivity.
Defined.

(** ** Frames of the steps of a transition *)

Lemma publish_geofence_event_frame (rt : Runtime) (device : option Device.t)
    (geofence : Geofence.t) (event_type : string) (latitude longitude : Decimal)
    (w : World) :
  exists w', publish_geofence_event rt device geofence event_type latitude longitude w
             = (Ok tt, w') /\ same_database w w'.
Proof.
  unfold publish_geofence_event, try_except.
  destruct device as [d |]; cbn.
  - unfold KafkaProducer.send_geofence_event, KafkaProducer.send_event.
    destruct (kafka_producer_started rt); cbn.
    + unfold try_except, bind, datetime_now, lift. cbn.
      match goal with
      | |- context [kafka_broker_send rt ?ev] => destruct (kafka_broker_send rt ev)
      end; cbn; eexists; split; try reflexivity; repeat split.
    + eexists; split; [reflexivity | repeat split].
  - eexists; split; [reflexivity | repeat split].
Qed.






(** ** Notifications *)








(** ** Timestamps of a transition *)




(** ** Unknown devices *)

(** C4 as stated fails: [process_location] for an unknown device id returns
    normally, exactly as it does for a known one. *)
Lemma unknown_device_returns_normally :
  let w0 := scenario_world [rectangle_fence 10 "Home" true true]
                           [association 1 10 false None] in
  let missing :=
    process_location scenario_runtime "ghost"
      (sample "ghost" (425 # 10) (745 # 10) 100%Z) w0 in
  let known :=
    process_location scenario_runtime "dev-1" (sample "dev-1" 0 0 100%Z) w0 in
  fst missing = Ok tt /\ fst known = Ok tt.
Proof. vm_compute. split; reflexivity. Qed.

(** C4 (amended). [process_location] called with a device id that resolves
    to no device returns normally, as a successful call does; its only
    effect is one WARNING log record: no location is saved, no device,
    association, notification, task or event is written, and the clock is
    not read. *)
Theorem unknown_device_is_logged_noop :
  forall (rt : Runtime) (device_id : string) (location_data : LocationCreate.t)
         (w : World),
    filter (fun d => String.eqb (Device.device_id d) device_id) (devices w) = [] ->
    exists w',
      process_location rt device_id location_data w = (Ok tt, w')
      /\ log w' = log w ++ [(WARNING,
                             ("Device " ++ device_id
                              ++ " not found. Cannot process location.")%string)]
      /\ locations w' = locations w
      /\ devices w' = devices w
      /\ device_geofences w' = device_geofences w
      /\ notifications w' = notifications w
      /\ celery_queue w' = celery_queue w
      /\ kafka_topic w' = kafka_topic w
      /\ clock_reads w' = clock_reads w.
Proof.
  intros rt device_id location_data w Hnone.
  unfold process_location, bind.
  rewrite read_device_by_device_id, Hnone. cbn.
  eexists. split; [reflexivity |]. cbn. repeat split.
Qed.

(** C4 (amended) at work. *)
Lemma unknown_device_is_logged_noop_witness :
  let w0 := scenario_world [rectangle_fence 10 "Home" true true]
                           [association 1 10 false None] in
  exists w',
    process_location scenario_runtime "ghost"
      (sample "ghost" (425 # 10) (745 # 10) 100%Z) w0 = (Ok tt, w')
    /\ locations w' = [] /\ device_geofences w' = device_geofences w0.
Proof.
  intros w0.
  destruct (@unknown_device_is_logged_noop scenario_runtime "ghost"
              (sample "ghost" (425 # 10) (745 # 10) 100%Z) w0 eq_refl)
    as (w' & Hrun & _ & Hloc & _ & Hdg & _).
  exists w'. split; [exact Hrun |]. split; [exact Hloc | exact Hdg].
Defined.

(** ** Missing and malformed shapes *)








(** ** Idempotence of [check_geofences] *)



Lemma scalar_one_in {A} (p : A -> bool) (l : list A) (a : A) :
  scalar_one_or_none (filter p l) = Ok (Some a) -> In a l /\ p a = true.
Proof.
  intros H.
  assert (Hin : In a (filter p l)).
  { destruct (filter p l) as [| b [| c rest]]; cbn in H; try discriminate.
    injection H as ->. now left. }
  now apply filter_In in Hin.
Qed.

Lemma evaluate_some (rt : Runtime) (w : World) (latitude longitude : Decimal)
    (geofence_id : Z) (g : Geofence.t) (is_inside : bool) :
  evaluate rt w latitude longitude geofence_id = Ok (Some (g, is_inside)) ->
  lookup_geofence w geofence_id = Ok (Some g)
  /\ Geofence.id g = geofence_id
  /\ Geofence.status g = ACTIVE
  /\ compute_is_inside rt g latitude longitude = Ok is_inside.
Proof.
  unfold evaluate. intros H.
  destruct (lookup_geofence w geofence_id) as [[g0 |] | e] eqn:Hl;
    cbn in H; try discriminate.
  destruct (String.eqb (status_value (Geofence.status g0)) "active") eqn:Hs;
    cbn in H; try discriminate.
  destruct (compute_is_inside rt g0 latitude longitude) as [b | e] eqn:Hc;
    cbn in H; try discriminate.
  injection H as <- <-.
  repeat split; try assumption.
  - apply scalar_one_in in Hl. destruct Hl as [_ Hid]. now apply Z.eqb_eq in Hid.
  - now apply status_active_iff.
Qed.











Section Idempotence.
Variable rt : Runtime.
Variable device_db_id : Z.
Variables latitude longitude : Decimal.
Variable device : option Device.t.

Let body := check_one rt device_db_id device latitude longitude.

(** A second pass over settled associations does nothing. *)
Lemma settled_pass (rows : list DeviceGeofence.t) (w : World) :
  Forall (settled rt w latitude longitude) rows ->
  for_each rows body w = (Ok tt, w).
Proof.
  induction 1 as [| row rows Hrow _ IH]; cbn [for_each]; [reflexivity |].
  unfold bind. subst body. cbv beta. rewrite check_one_evaluate.
  unfold settled in Hrow.
  destruct (evaluate rt w latitude longitude (DeviceGeofence.geofence_id row))
    as [[[g b] |] | e]; try contradiction.
  - rewrite <- Hrow.
    replace (detect_transition (DeviceGeofence.is_inside row)
               (DeviceGeofence.is_inside row)) with Unchanged
      by (now destruct (DeviceGeofence.is_inside row)).
    cbn. exact IH.
  - exact IH.
Qed.

End Idempotence.

Section FirstPass.
Variable rt : Runtime.
Variable device_db_id : Z.
Variables latitude longitude : Decimal.
Variable device : option Device.t.

Let body := check_one rt device_db_id device latitude longitude.


End FirstPass.

(** Two rows for one pair: [scalar_one_or_none] in [get_or_create] raises at
    the first transition and nothing is updated, on every run. *)
Example duplicate_rows_raise :
  let w0 := scenario_world [rectangle_fence 10 "Home" true true]
              [association 1 10 false None; association 2 10 false None] in
  check_geofences scenario_runtime 1 (425 # 10) (745 # 10) w0
  = (Raise MultipleResultsFound, set_clock_reads S w0).
Proof. reflexivity. Qed.



(** * Further properties *)

(** ** The association repository ([geofence_repository.py], lines 88-147) *)

Lemma filter_matches_fresh (w : World) (device_id geofence_id d g : Z) :
  DeviceGeofenceRepository.matches d g (fresh_association w device_id geofence_id)
  = Z.eqb device_id d && Z.eqb geofence_id g.
Proof. reflexivity. Qed.

Lemma length_le_1_cases {A} (l : list A) :
  (List.length l <= 1)%nat -> l = [] \/ exists a, l = [a].
Proof.
  destruct l as [| a [| b l]]; cbn; intros H; [now left | right; now exists a | lia].
Qed.

Lemma get_or_create_found (device_id geofence_id : Z) (row : DeviceGeofence.t)
    (w : World) :
  filter (DeviceGeofenceRepository.matches device_id geofence_id) (device_geofences w)
  = [row] ->
  DeviceGeofenceRepository.get_or_create device_id geofence_id w = (Ok row, w).
Proof.
  intros H. unfold DeviceGeofenceRepository.get_or_create, bind, get_world, lift.
  now rewrite H.
Qed.

Lemma get_or_create_missing (device_id geofence_id : Z) (w : World) :
  filter (DeviceGeofenceRepository.matches device_id geofence_id) (device_geofences w)
  = [] ->
  DeviceGeofenceRepository.get_or_create device_id geofence_id w
  = (Ok (fresh_association w device_id geofence_id),
     set_device_geofences
       (fun l => l ++ [fresh_association w device_id geofence_id]) w).
Proof.
  intros H. unfold DeviceGeofenceRepository.get_or_create, bind, get_world, lift.
  now rewrite H.
Qed.

(** X1. In a table with at most one row for the pair, [get_or_create]
    returns the pair's row, leaving the world as it is, or, when there is
    none, appends a row with [is_inside] false and no timestamps and
    returns it.  Afterwards the pair has exactly that row, a second call
    returns it again without touching the world, and a table in which every
    pair had at most one row still has that property. *)
Theorem get_or_create_single_row :
  forall (device_id geofence_id : Z) (w : World),
    (List.length (filter (DeviceGeofenceRepository.matches device_id geofence_id)
                    (device_geofences w)) <= 1)%nat ->
    exists row w',
      DeviceGeofenceRepository.get_or_create device_id geofence_id w = (Ok row, w')
      /\ filter (DeviceGeofenceRepository.matches device_id geofence_id)
                (device_geofences w') = [row]
      /\ (filter (DeviceGeofenceRepository.matches device_id geofence_id)
                 (device_geofences w) = [] ->
          device_geofences w' = device_geofences w ++ [row]
          /\ DeviceGeofence.device_id row = device_id
          /\ DeviceGeofence.geofence_id row = geofence_id
          /\ DeviceGeofence.is_inside row = false
          /\ DeviceGeofence.last_entered_at row = None
          /\ DeviceGeofence.last_exited_at row = None)
      /\ (filter (DeviceGeofenceRepository.matches device_id geofence_id)
                 (device_geofences w) <> [] -> w' = w)
      /\ DeviceGeofenceRepository.get_or_create device_id geofence_id w' = (Ok row, w')
      /\ (pairs_unique w -> pairs_unique w').
Proof.
  intros device_id geofence_id w Hlen.
  destruct (length_le_1_cases _ Hlen) as [Hnone | [row Hone]].
  - exists (fresh_association w device_id geofence_id).
    eexists. split; [now apply get_or_create_missing |].
    assert (Hnew : filter (DeviceGeofenceRepository.matches device_id geofence_id)
                     (device_geofences w ++ [fresh_association w device_id geofence_id])
                   = [fresh_association w device_id geofence_id]).
    { rewrite filter_app, Hnone. cbn [filter app].
      rewrite filter_matches_fresh, !Z.eqb_refl. reflexivity. }
    split; [exact Hnew |].
    split; [intros _; repeat split |].
    split; [intros H; now rewrite Hnone in H |].
    split; [now apply get_or_create_found |].
    intros Huniq d g. cbn [device_geofences set_device_geofences].
    rewrite filter_app, length_app. cbn [filter].
    rewrite filter_matches_fresh.
    destruct (Z.eqb device_id d && Z.eqb geofence_id g) eqn:E.
    + apply andb_true_iff in E. destruct E as [Ed Eg].
      apply Z.eqb_eq in Ed, Eg. subst d g. rewrite Hnone. cbn. lia.
    + specialize (Huniq d g). cbn. lia.
  - exists row, w. split; [now apply get_or_create_found |].
    split; [exact Hone |].
    split; [intros H; rewrite Hone in H; discriminate |].
    split; [reflexivity |].
    split; [now apply get_or_create_found | auto].
Qed.

(** X1 at work: the pair (1, 10) has no row in an empty table. *)
Lemma get_or_create_single_row_witness :
  exists row w',
    DeviceGeofenceRepository.get_or_create 1 10 (scenario_world [] []) = (Ok row, w')
    /\ device_geofences w' = [row]
    /\ DeviceGeofence.is_inside row = false.
Proof.
  destruct (@get_or_create_single_row 1 10 (scenario_world [] []))
    as (row & w' & Hrun & _ & Hnew & _).
  - cbn. lia.
  - destruct (Hnew eq_refl) as (Hrows & _ & _ & Hin & _).
    exists row, w'. auto.
Defined.


Lemma filter_map_same_test {A} (p : A -> bool) (f : A -> A) (l : list A) :
  (forall a, p (f a) = p a) ->
  filter p (map f l) = map f (filter p l).
Proof.
  intros H. induction l as [| a l IH]; cbn; [reflexivity |].
  rewrite H. destruct (p a); cbn; now rewrite IH.
Qed.








(** X3. When the pair has two or more rows, [update_state] raises
    [MultipleResultsFound] (from [scalar_one_or_none] in [get_or_create])
    and leaves the world as it was: no row is updated. *)
Theorem update_state_ambiguous_pair :
  forall (device_id geofence_id : Z) (is_inside : bool)
         (entered_at exited_at : option datetime) (w : World),
    (2 <= List.length (filter (DeviceGeofenceRepository.matches device_id geofence_id)
                         (device_geofences w)))%nat ->
    DeviceGeofenceRepository.update_state device_id geofence_id is_inside
      entered_at exited_at w = (Raise MultipleResultsFound, w)
    /\ DeviceGeofenceRepository.get_or_create device_id geofence_id w
       = (Raise MultipleResultsFound, w).
Proof.
  intros device_id geofence_id is_inside entered_at exited_at w Hlen.
  unfold DeviceGeofenceRepository.update_state,
    DeviceGeofenceRepository.get_or_create, bind, get_world, lift.
  destruct (filter (DeviceGeofenceRepository.matches device_id geofence_id)
              (device_geofences w)) as [| a [| b l]]; cbn in Hlen; try lia.
  split; reflexivity.
Qed.

(** X3 at work: two rows for the pair (1, 10). *)
Lemma update_state_ambiguous_pair_witness :
  let w := scenario_world [] [association 1 10 false None; association 2 10 true None] in
  DeviceGeofenceRepository.update_state 1 10 true None None w
  = (Raise MultipleResultsFound, w).
Proof.
  intros w.
  apply (@update_state_ambiguous_pair 1 10 true None None w). cbn. lia.
Defined.

(** ** Edge cases of the shapes ([geolocation_service.py], lines 43-70) *)

Lemma Qle_bool_false (a b : Q) : ~ (a <= b)%Q -> Qle_bool a b = false.
Proof.
  intros H. destruct (Qle_bool a b) eqn:E; [| reflexivity].
  apply Qle_bool_iff in E. contradiction.
Qed.

(** X4. [point_in_rectangle] does not validate its bounds.  A point south
    of [min_lat] is outside whatever the other three bounds are, even
    absent; bounds given in the wrong order ([max_lat < min_lat] or
    [max_lon < min_lon]) make a rectangle no point is inside of; an absent
    [min_lat] raises [TypeError] for every point, and an absent [max_lat]
    raises it for the points at or north of [min_lat] only. *)
Theorem point_in_rectangle_unvalidated_bounds :
  forall (lat lon min_lat max_lat min_lon max_lon : Decimal),
    (forall max_lat' min_lon' max_lon' : option Decimal,
        ~ (min_lat <= lat)%Q ->
        point_in_rectangle lat lon (Some min_lat) max_lat' min_lon' max_lon'
        = Ok false)
    /\ ((max_lat < min_lat)%Q \/ (max_lon < min_lon)%Q ->
        point_in_rectangle lat lon
          (Some min_lat) (Some max_lat) (Some min_lon) (Some max_lon) = Ok false)
    /\ (forall max_lat' min_lon' max_lon' : option Decimal,
           point_in_rectangle lat lon None max_lat' min_lon' max_lon'
           = Raise TypeError)
    /\ (forall min_lon' max_lon' : option Decimal,
           (min_lat <= lat)%Q ->
           point_in_rectangle lat lon (Some min_lat) None min_lon' max_lon'
           = Raise TypeError).
Proof.
  intros lat lon min_lat max_lat min_lon max_lon.
  split; [| split; [| split]].
  - intros max_lat' min_lon' max_lon' H. unfold point_in_rectangle.
    cbn. now rewrite (Qle_bool_false H).
  - intros H. rewrite point_in_rectangle_populated.
    destruct (Qle_bool min_lat lat && Qle_bool lat max_lat
              && Qle_bool min_lon lon && Qle_bool lon max_lon) eqn:E;
      [| reflexivity].
    apply rectangle_test_iff in E. destruct E as (H1 & H2 & H3 & H4).
    exfalso. destruct H as [H | H].
    + apply (Qlt_not_le _ _ H). now apply Qle_trans with lat.
    + apply (Qlt_not_le _ _ H). now apply Qle_trans with lon.
  - reflexivity.
  - intros min_lon' max_lon' H. unfold point_in_rectangle. cbn.
    apply Qle_bool_iff in H. now rewrite H.
Qed.

Lemma unpack_pair_ok (c : list Decimal) :
  List.length c = 2%nat ->
  unpack_pair c = Ok (nth 0 c 0%Q, nth 1 c 0%Q).
Proof.
  destruct c as [| a [| b [| x l]]]; cbn; intros H; try discriminate; reflexivity.
Qed.

Lemma unpack_pair_bad (c : list Decimal) :
  List.length c <> 2%nat -> unpack_pair c = Raise ValueError.
Proof.
  destruct c as [| a [| b [| x l]]]; cbn; intros H; try reflexivity; contradiction.
Qed.

Lemma polygon_vertices_pairs (rt : Runtime) (coords : list (list Decimal)) :
  Forall (fun c => List.length c = 2%nat) coords ->
  polygon_vertices rt coords
  = Ok (map (fun c => (float_of_decimal rt (nth 1 c 0%Q),
                       float_of_decimal rt (nth 0 c 0%Q))) coords).
Proof.
  induction 1 as [| c rest Hc _ IH]; cbn [polygon_vertices map]; [reflexivity |].
  rewrite (unpack_pair_ok _ Hc), IH. reflexivity.
Qed.

Lemma polygon_vertices_malformed (rt : Runtime) (coords : list (list Decimal)) :
  Exists (fun c => List.length c <> 2%nat) coords ->
  polygon_vertices rt coords = Raise ValueError.
Proof.
  induction coords as [| c rest IH]; intros H; [inversion H |].
  cbn [polygon_vertices].
  destruct (Nat.eq_dec (List.length c) 2) as [Hc | Hc].
  - rewrite (unpack_pair_ok _ Hc). cbn [rbind].
    inversion H as [? ? Hbad | ? ? Hbad]; subst; [contradiction |].
    now rewrite (IH Hbad).
  - now rewrite (unpack_pair_bad _ Hc).
Qed.

(** X5. [point_in_polygon] hands shapely the stored [lat, lon] pairs as
    (lon, lat) vertices, in their order, and the point as (lon, lat); its
    answer is shapely's.  When some stored vertex is not a pair, it raises
    [ValueError] (from the unpacking) whatever shapely would say. *)
Theorem point_in_polygon_vertex_order :
  forall (rt : Runtime) (lat lon : Decimal) (polygon_coords : list (list Decimal)),
    (Forall (fun c => List.length c = 2%nat) polygon_coords ->
     point_in_polygon rt lat lon polygon_coords
     = shapely_polygon_contains rt
         (map (fun c => (float_of_decimal rt (nth 1 c 0%Q),
                         float_of_decimal rt (nth 0 c 0%Q))) polygon_coords)
         (float_of_decimal rt lon, float_of_decimal rt lat))
    /\ (Exists (fun c => List.length c <> 2%nat) polygon_coords ->
        point_in_polygon rt lat lon polygon_coords = Raise ValueError).
Proof.
  intros rt lat lon polygon_coords. unfold point_in_polygon. split; intros H.
  - now rewrite (polygon_vertices_pairs rt H).
  - now rewrite (polygon_vertices_malformed rt H).
Qed.

(** ** What [check_geofences] leaves alone (lines 148-249) *)

Lemma row_kept_refl (device_db_id : Z) (row : DeviceGeofence.t) :
  row_kept device_db_id row row.
Proof. repeat split. Qed.

Lemma rows_kept_refl (device_db_id : Z) (l : list DeviceGeofence.t) :
  Forall2 (row_kept device_db_id) l l.
Proof. induction l; constructor; [apply row_kept_refl | assumption]. Qed.

Lemma rows_kept_trans (device_db_id : Z) (l1 l2 l3 : list DeviceGeofence.t) :
  Forall2 (row_kept device_db_id) l1 l2 ->
  Forall2 (row_kept device_db_id) l2 l3 ->
  Forall2 (row_kept device_db_id) l1 l3.
Proof.
  intros H12. revert l3.
  induction H12 as [| a b l1 l2 Hab _ IH]; intros l3 H23;
    inversion H23 as [| ? c ? l3' Hbc H23']; subst; constructor.
  - destruct Hab as (Hi & Hd & Hg & Hsame), Hbc as (Hi' & Hd' & Hg' & Hsame').
    repeat split; try congruence.
    intros Hne. rewrite Hsame' by congruence. now apply Hsame.
  - now apply IH.
Qed.

Lemma rows_kept_map_update (device_id geofence_id : Z) (is_inside : bool)
    (entered_at exited_at : option datetime) (l : list DeviceGeofence.t) :
  Forall2 (row_kept device_id) l
    (map (fun dg =>
            if DeviceGeofenceRepository.matches device_id geofence_id dg
            then DeviceGeofenceRepository.apply_update is_inside entered_at exited_at dg
            else dg) l).
Proof.
  induction l as [| a l IH]; cbn [map]; constructor; [| exact IH].
  destruct (DeviceGeofenceRepository.matches device_id geofence_id a) eqn:E;
    [| apply row_kept_refl].
  repeat split. intros Hne. exfalso. apply Hne.
  unfold DeviceGeofenceRepository.matches in E.
  apply andb_true_iff in E. destruct E as [E _]. now apply Z.eqb_eq in E.
Qed.

Lemma rows_kept_existsb (device_db_id d g : Z) (l l' : list DeviceGeofence.t) :
  Forall2 (row_kept device_db_id) l l' ->
  existsb (DeviceGeofenceRepository.matches d g) l'
  = existsb (DeviceGeofenceRepository.matches d g) l.
Proof.
  induction 1 as [| a b l l' (Hi & Hd & Hg & _) _ IH]; cbn; [reflexivity |].
  unfold DeviceGeofenceRepository.matches at 1 3. now rewrite Hd, Hg, IH.
Qed.

Lemma existsb_filter_nonempty {A} (p : A -> bool) (l : list A) :
  existsb p l = true -> filter p l <> [].
Proof.
  induction l as [| a l IH]; cbn; [discriminate |].
  destruct (p a); cbn; [discriminate | exact IH].
Qed.

Lemma tables_kept_refl (device_db_id : Z) (w : World) : tables_kept device_db_id w w.
Proof. repeat split. apply rows_kept_refl. Qed.

Lemma tables_kept_trans (device_db_id : Z) (w1 w2 w3 : World) :
  tables_kept device_db_id w1 w2 -> tables_kept device_db_id w2 w3 ->
  tables_kept device_db_id w1 w3.
Proof.
  intros (Hd & Hg & Hl & Hr) (Hd' & Hg' & Hl' & Hr').
  repeat split; try congruence. now apply rows_kept_trans with (device_geofences w2).
Qed.

Lemma update_state_tables_kept (device_id geofence_id : Z) (is_inside : bool)
    (entered_at exited_at : option datetime) (w : World) :
  existsb (DeviceGeofenceRepository.matches device_id geofence_id)
          (device_geofences w) = true ->
  tables_kept device_id w
    (snd (DeviceGeofenceRepository.update_state device_id geofence_id is_inside
            entered_at exited_at w)).
Proof.
  intros Hex. apply existsb_filter_nonempty in Hex.
  unfold DeviceGeofenceRepository.update_state,
    DeviceGeofenceRepository.get_or_create, bind, get_world, lift.
  destruct (filter (DeviceGeofenceRepository.matches device_id geofence_id)
              (device_geofences w)) as [| a [| b l]]; [contradiction | |].
  - cbn. repeat split. apply rows_kept_map_update.
  - cbn. apply tables_kept_refl.
Qed.

Lemma send_geofence_notification_tables_kept (rt : Runtime) (device_db_id : Z)
    (geofence : Geofence.t) (event_type : string) (latitude longitude : Decimal)
    (w : World) :
  tables_kept device_db_id w
    (snd (send_geofence_notification rt device_db_id geofence event_type
            latitude longitude w)).
Proof.
  unfold send_geofence_notification, bind. rewrite read_device_by_id.
  destruct (lookup_device w device_db_id) as [[device |] | e]; cbn;
    try apply tables_kept_refl.
  destruct (Geofence.enable_push geofence && truthy_str (Device.fcm_token device));
    destruct (Geofence.enable_telegram geofence
              && truthy_str (Device.telegram_chat_id device));
    cbn; repeat split; apply rows_kept_refl.
Qed.

Lemma publish_geofence_event_tables_kept (rt : Runtime) (device_db_id : Z)
    (device : option Device.t) (geofence : Geofence.t) (event_type : string)
    (latitude longitude : Decimal) (w : World) :
  tables_kept device_db_id w
    (snd (publish_geofence_event rt device geofence event_type latitude longitude w)).
Proof.
  destruct (publish_geofence_event_frame rt device geofence event_type
              latitude longitude w) as (w' & -> & Hd & Hg & Hdg & Hl & _).
  cbn. repeat split; try assumption. rewrite Hdg. apply rows_kept_refl.
Qed.

Lemma bind_snd_tables_kept {A B} (device_db_id : Z) (m : M A) (k : A -> M B)
    (w : World) :
  tables_kept device_db_id w (snd (m w)) ->
  (forall a w1, m w = (Ok a, w1) -> tables_kept device_db_id w1 (snd (k a w1))) ->
  tables_kept device_db_id w (snd (bind m k w)).
Proof.
  intros Hm Hk. unfold bind. destruct (m w) as [[a | e] w1] eqn:E; cbn in *.
  - apply tables_kept_trans with w1; [exact Hm | now apply Hk].
  - exact Hm.
Qed.

Lemma handle_transition_tables_kept (rt : Runtime) (device_db_id : Z)
    (device : option Device.t) (geofence : Geofence.t)
    (latitude longitude : Decimal) (kind : TransitionKind) (w : World) :
  existsb (DeviceGeofenceRepository.matches device_db_id (Geofence.id geofence))
          (device_geofences w) = true ->
  tables_kept device_db_id w
    (snd (handle_transition rt device_db_id device geofence latitude longitude kind w)).
Proof.
  intros Hex.
  destruct kind; cbn [handle_transition]; [| | apply tables_kept_refl].
  all: apply bind_snd_tables_kept;
         [cbn; repeat split; apply rows_kept_refl |].
  all: intros now w1 Hnow; unfold datetime_now in Hnow; injection Hnow as _ <-.
  all: apply bind_snd_tables_kept;
         [apply update_state_tables_kept; exact Hex |].
  all: intros r1 w2 _.
  all: apply bind_snd_tables_kept;
         [| intros; apply publish_geofence_event_tables_kept].
  all: match goal with
       | |- context [if ?flag then _ else _] => destruct flag
       end;
       [apply send_geofence_notification_tables_kept | apply tables_kept_refl].
Qed.

Lemma check_one_tables_kept (rt : Runtime) (device_db_id : Z)
    (device : option Device.t) (latitude longitude : Decimal)
    (row : DeviceGeofence.t) (w : World) :
  existsb (DeviceGeofenceRepository.matches device_db_id
             (DeviceGeofence.geofence_id row)) (device_geofences w) = true ->
  tables_kept device_db_id w
    (snd (check_one rt device_db_id device latitude longitude row w)).
Proof.
  intros Hex. rewrite check_one_evaluate.
  destruct (evaluate rt w latitude longitude (DeviceGeofence.geofence_id row))
    as [[[g b] |] | e] eqn:Hev; try apply tables_kept_refl.
  apply handle_transition_tables_kept.
  destruct (evaluate_some rt w latitude longitude _ Hev) as (_ & -> & _).
  exact Hex.
Qed.

Lemma for_each_tables_kept (rt : Runtime) (device_db_id : Z)
    (device : option Device.t) (latitude longitude : Decimal)
    (rows : list DeviceGeofence.t) :
  forall w,
    Forall (fun row =>
              existsb (DeviceGeofenceRepository.matches device_db_id
                         (DeviceGeofence.geofence_id row))
                      (device_geofences w) = true) rows ->
    tables_kept device_db_id w
      (snd (for_each rows (check_one rt device_db_id device latitude longitude) w)).
Proof.
  induction rows as [| row rows IH]; intros w Hall; cbn [for_each].
  - apply tables_kept_refl.
  - inversion Hall as [| ? ? Hrow Hrest]; subst.
    apply bind_snd_tables_kept; [now apply check_one_tables_kept |].
    intros [] w1 Hstep. apply IH.
    pose proof (check_one_tables_kept rt device_db_id device latitude longitude
                  row w Hrow) as (_ & _ & _ & Hkept).
    rewrite Hstep in Hkept. cbn in Hkept.
    eapply Forall_impl; [| exact Hrest].
    intros r Hr. cbv beta in Hr |- *.
    now rewrite (rows_kept_existsb device_db_id _ Hkept).
Qed.

Lemma associations_exist (w : World) (device_db_id : Z) :
  Forall (fun row =>
            existsb (DeviceGeofenceRepository.matches device_db_id
                       (DeviceGeofence.geofence_id row))
                    (device_geofences w) = true)
         (associations_of w device_db_id).
Proof.
  apply Forall_forall. intros row Hin.
  apply filter_In in Hin. destruct Hin as [Hin Hdev].
  apply existsb_exists. exists row. split; [exact Hin |].
  unfold DeviceGeofenceRepository.matches. now rewrite Hdev, Z.eqb_refl.
Qed.

(** X6. Whatever its result, [check_geofences] for a device leaves the
    device, geofence and location tables as they were, adds and removes no
    association row, changes no row's id, device or geofence, and leaves
    the rows of every other device untouched. *)
Theorem check_geofences_is_device_scoped :
  forall (rt : Runtime) (device_db_id : Z) (latitude longitude : Decimal) (w : World),
    let w' := snd (check_geofences rt device_db_id latitude longitude w) in
    devices w' = devices w
    /\ geofences w' = geofences w
    /\ locations w' = locations w
    /\ Forall2 (fun old new =>
                  DeviceGeofence.id new = DeviceGeofence.id old
                  /\ DeviceGeofence.device_id new = DeviceGeofence.device_id old
                  /\ DeviceGeofence.geofence_id new = DeviceGeofence.geofence_id old
                  /\ (DeviceGeofence.device_id old <> device_db_id -> new = old))
               (device_geofences w) (device_geofences w').
Proof.
  intros rt device_db_id latitude longitude w w'. subst w'.
  change (tables_kept device_db_id w
            (snd (check_geofences rt device_db_id latitude longitude w))).
  unfold check_geofences.
  apply bind_snd_tables_kept; [rewrite get_associations; apply tables_kept_refl |].
  intros rows w1 Hrows. rewrite get_associations in Hrows. injection Hrows as <- <-.
  apply bind_snd_tables_kept; [rewrite read_device_by_id; apply tables_kept_refl |].
  intros device w1 Hdev. rewrite read_device_by_id in Hdev. injection Hdev as _ <-.
  apply for_each_tables_kept. apply associations_exist.
Qed.

(** ** Which associations [check_geofences] evaluates, and when it raises *)

Lemma status_not_active (s : GeofenceStatus) :
  s <> ACTIVE -> String.eqb (status_value s) "active" = false.
Proof. destruct s; cbn; intros H; [contradiction | reflexivity | reflexivity]. Qed.

(** X7. Only Active geofences are evaluated.  When every association of a
    device refers to a geofence that does not exist or is not Active,
    [check_geofences] returns normally and leaves the whole world as it
    was, whatever the stored [is_inside] and whatever the shape parameters
    of those geofences: a malformed geofence that is not Active raises
    nothing.  A device without associations is the special case of an
    empty list. *)
Theorem check_geofences_skips_inactive :
  forall (rt : Runtime) (device_db_id : Z) (latitude longitude : Decimal)
         (device : option Device.t) (w : World),
    lookup_device w device_db_id = Ok device ->
    Forall (fun row =>
              lookup_geofence w (DeviceGeofence.geofence_id row) = Ok None
              \/ exists g,
                   lookup_geofence w (DeviceGeofence.geofence_id row) = Ok (Some g)
                   /\ Geofence.status g <> ACTIVE)
           (associations_of w device_db_id) ->
    check_geofences rt device_db_id latitude longitude w = (Ok tt, w).
Proof.
  intros rt device_db_id latitude longitude device w Hdev Hall.
  unfold check_geofences, bind.
  rewrite get_associations, read_device_by_id, Hdev.
  apply settled_pass.
  eapply Forall_impl; [| exact Hall].
  intros row [Hnone | (g & Hsome & Hstatus)]; unfold settled, evaluate.
  - now rewrite Hnone.
  - rewrite Hsome. cbn [rbind]. now rewrite (status_not_active Hstatus).
Qed.

(** X7 at work: the device is stored as inside an archived rectangle that
    has no bounds, and as outside a geofence that no longer exists. *)
Lemma check_geofences_skips_inactive_witness :
  let archived :=
    Geofence.mk 20 "Old" RECTANGLE None None None None None None None None
      ARCHIVED true true None true true false in
  let w := scenario_world [archived]
             [association 1 20 true None; association 2 99 false None] in
  check_geofences scenario_runtime 1 (425 # 10) (745 # 10) w = (Ok tt, w).
Proof.
  intros archived w.
  apply (@check_geofences_skips_inactive scenario_runtime 1 (425 # 10) (745 # 10)
           (Some phone) w eq_refl).
  constructor; [| constructor; [| constructor]].
  - right. exists archived. split; [reflexivity | discriminate].
  - left. reflexivity.
Defined.




(** ** The Kafka event of a transition (lines 204-216, 237-249) *)








(** ** Notification rows and their tasks (lines 269-336) *)

Lemma fold_max_bound (ids : list Z) (x : Z) :
  In x ids -> (x <= fold_right Z.max 0 ids)%Z.
Proof.
  induction ids as [| a ids IH]; cbn; [contradiction |].
  intros [-> | H]; [lia | specialize (IH H); lia].
Qed.

Lemma next_id_fresh (ids : list Z) : ~ In (next_id ids) ids.
Proof.
  intros H. apply fold_max_bound in H. unfold next_id in H. lia.
Qed.

Lemma next_id_fresh_app (ids more : list Z) :
  ~ In (next_id (ids ++ more)) ids /\ ~ In (next_id (ids ++ more)) more.
Proof.
  split; intros H; apply (next_id_fresh (ids ++ more));
    apply in_or_app; [now left | now right].
Qed.

Ltac fresh_ids :=
  repeat match goal with
         | |- NoDup [] => constructor
         | |- NoDup (_ :: _) => constructor
         | |- Forall _ [] => constructor
         | |- Forall _ (_ :: _) => constructor; cbn [Notification.id]
         | |- ~ In _ [] => intros []
         | |- ~ In (next_id ?ids) ?ids => apply next_id_fresh
         | |- ~ In (next_id (?ids ++ ?more)) ?ids =>
             apply (proj1 (next_id_fresh_app ids more))
         | |- ~ In ?a [next_id (?ids ++ [?a])] =>
             let H := fresh in
             intros [H | []];
             apply (proj2 (next_id_fresh_app ids [a])); left; symmetry; exact H
         end.

(** X11. [send_geofence_notification] for a known device creates its
    notification rows and queues its tasks in step: the n-th task carries
    the id of the n-th new row; the new ids are distinct and differ from
    every id already in the table; every new row belongs to the device
    and the geofence, is PENDING and unscheduled, and records the event
    type and the geofence's sound flag; a push task carries the device's
    [fcm_token] and no chat id, a Telegram task the device's
    [telegram_chat_id] and no token. *)
Theorem notification_rows_and_tasks :
  forall (rt : Runtime) (device_db_id : Z) (device : Device.t)
         (geofence : Geofence.t) (event_type : string)
         (latitude longitude : Decimal) (w : World),
    lookup_device w device_db_id = Ok (Some device) ->
    exists w' new_rows new_tasks,
      send_geofence_notification rt device_db_id geofence event_type
        latitude longitude w = (Ok tt, w')
      /\ notifications w' = notifications w ++ new_rows
      /\ celery_queue w' = celery_queue w ++ new_tasks
      /\ map task_notification_id new_tasks = map Notification.id new_rows
      /\ NoDup (map Notification.id new_rows)
      /\ Forall (fun n => ~ In (Notification.id n)
                               (map Notification.id (notifications w))) new_rows
      /\ Forall (fun n =>
                   Notification.device_id n = device_db_id
                   /\ Notification.geofence_id n = Some (Geofence.id geofence)
                   /\ Notification.status n = PENDING
                   /\ Notification.event_type n = Some event_type
                   /\ Notification.enable_sound n = Geofence.enable_sound geofence
                   /\ Notification.scheduled_at n = None)
                new_rows
      /\ Forall (fun t =>
                   task_device_id t = Device.device_id device
                   /\ task_enable_sound t = Geofence.enable_sound geofence
                   /\ (task_notification_type t = "push"%string ->
                       task_fcm_token t = Device.fcm_token device
                       /\ task_telegram_chat_id t = None)
                   /\ (task_notification_type t = "telegram"%string ->
                       task_telegram_chat_id t = Device.telegram_chat_id device
                       /\ task_fcm_token t = None))
                new_tasks.
Proof.
  intros rt device_db_id device geofence event_type latitude longitude w Hdev.
  unfold send_geofence_notification, bind. rewrite read_device_by_id, Hdev.
  destruct (Geofence.enable_push geofence && truthy_str (Device.fcm_token device));
    destruct (Geofence.enable_telegram geofence
              && truthy_str (Device.telegram_chat_id device));
    cbn -[next_id]; do 3 eexists; (split; [reflexivity |]); cbn -[next_id];
    (split; [first [ reflexivity | symmetry; apply app_nil_r
                   | rewrite <- app_assoc; reflexivity ] |]);
    (split; [first [ reflexivity | symmetry; apply app_nil_r
                   | rewrite <- app_assoc; reflexivity ] |]);
    cbn -[next_id].
  all: (split; [reflexivity |]).
  all: rewrite ?map_app; cbn -[next_id].
  all: split; [fresh_ids |].
  all: split; [fresh_ids |].
  all: split.
  all: repeat constructor.
  all: cbn; intros; try discriminate.
  all: try (split; reflexivity).
Qed.

(** X11 at work: one push notification for the phone of the scenarios. *)
Lemma notification_rows_and_tasks_witness :
  let fence := rectangle_fence 10 "Home" true true in
  let w := scenario_world [fence] [association 1 10 false None] in
  exists w' new_rows new_tasks,
    send_geofence_notification scenario_runtime 1 fence "geofence_enter"
      (425 # 10) (745 # 10) w = (Ok tt, w')
    /\ notifications w' = new_rows
    /\ celery_queue w' = new_tasks
    /\ map task_notification_id new_tasks = map Notification.id new_rows.
Proof.
  intros fence w.
  destruct (@notification_rows_and_tasks scenario_runtime 1 phone fence
              "geofence_enter" (425 # 10) (745 # 10) w eq_refl)
    as (w' & new_rows & new_tasks & Hrun & Hn & Hq & Hids & _).
  exists w', new_rows, new_tasks. auto.
Defined.

(** ** [process_location] for a known device (lines 104-146) *)

Lemma check_geofences_tables_kept (rt : Runtime) (device_db_id : Z)
    (latitude longitude : Decimal) (w : World) :
  tables_kept device_db_id w
    (snd (check_geofences rt device_db_id latitude longitude w)).
Proof.
  unfold check_geofences.
  apply bind_snd_tables_kept; [rewrite get_associations; apply tables_kept_refl |].
  intros rows w1 Hrows. rewrite get_associations in Hrows. injection Hrows as <- <-.
  apply bind_snd_tables_kept; [rewrite read_device_by_id; apply tables_kept_refl |].
  intros device w1 Hdev. rewrite read_device_by_id in Hdev. injection Hdev as _ <-.
  apply for_each_tables_kept. apply associations_exist.
Qed.

Lemma publish_location_event_frame (rt : Runtime) (device_id : string)
    (location : LocationData) (timestamp : datetime) (w : World) :
  exists w',
    try_except (KafkaProducer.send_location_event rt device_id location timestamp)
      (fun e => logger ERROR ("Failed to publish location event: " ++ exc_str e)) w
    = (Ok tt, w')
    /\ same_database w w'.
Proof.
  unfold try_except, KafkaProducer.send_location_event, KafkaProducer.send_event.
  destruct (kafka_producer_started rt); cbn.
  - unfold try_except, bind, datetime_now, lift. cbn.
    match goal with
    | |- context [kafka_broker_send rt ?ev] => destruct (kafka_broker_send rt ev)
    end; cbn; eexists; split; try reflexivity; repeat split.
  - eexists; split; [reflexivity | repeat split].
Qed.

Lemma update_address_fresh (rows : list Location.t) (location : Location.t)
    (address : string) (city country : option string) :
  Location.id location = next_id (map Location.id rows) ->
  map (fun l =>
         if Z.eqb (Location.id l) (Location.id location)
         then Location.mk (Location.id l) (Location.device_id l)
                (Location.latitude l) (Location.longitude l) (Location.altitude l)
                (Location.accuracy l) (Location.speed l) (Location.heading l)
                (Some address) city country (Location.timestamp l)
         else l) (rows ++ [location])
  = rows ++ [Location.mk (Location.id location) (Location.device_id location)
               (Location.latitude location) (Location.longitude location)
               (Location.altitude location) (Location.accuracy location)
               (Location.speed location) (Location.heading location)
               (Some address) city country (Location.timestamp location)].
Proof.
  intros Hid. rewrite map_app. cbn [map]. rewrite Z.eqb_refl. f_equal.
  rewrite <- (map_id rows) at 2. apply map_ext_in. intros l Hl.
  destruct (Z.eqb (Location.id l) (Location.id location)) eqn:E; [| reflexivity].
  apply Z.eqb_eq in E. exfalso. apply (next_id_fresh (map Location.id rows)).
  rewrite <- Hid, <- E. now apply in_map.
Qed.


Lemma reverse_geocode_location_spec (rt : Runtime) (location : Location.t)
    (location_data : LocationCreate.t) (rows : list Location.t) (w : World) :
  locations w = rows ++ [location] ->
  Location.id location = next_id (map Location.id rows) ->
  Location.address location = None ->
  Location.city location = None ->
  Location.country location = None ->
  exists w',
    reverse_geocode_location rt location location_data w = (Ok tt, w')
    /\ locations w'
       = rows ++ [Location.mk (Location.id location) (Location.device_id location)
                    (Location.latitude location) (Location.longitude location)
                    (Location.altitude location) (Location.accuracy location)
                    (Location.speed location) (Location.heading location)
                    (fst (fst (geocoded_address rt location_data)))
                    (snd (fst (geocoded_address rt location_data)))
                    (snd (geocoded_address rt location_data))
                    (Location.timestamp location)]
    /\ devices w' = devices w /\ geofences w' = geofences w
    /\ device_geofences w' = device_geofences w
    /\ notifications w' = notifications w /\ celery_queue w' = celery_queue w.
Proof.
  intros Hrows Hid Ha Hc Hco.
  assert (Hsame : rows ++ [location]
                  = rows ++ [Location.mk (Location.id location)
                               (Location.device_id location)
                               (Location.latitude location) (Location.longitude location)
                               (Location.altitude location) (Location.accuracy location)
                               (Location.speed location) (Location.heading location)
                               None None None (Location.timestamp location)]).
  { f_equal. f_equal. destruct location; cbn in *. now subst. }
  unfold reverse_geocode_location, geocoded_address.
  destruct (google_maps_client rt).
  - unfold try_except, bind, lift.
    destruct (google_maps_reverse_geocode rt (LocationCreate.latitude location_data)
                (LocationCreate.longitude location_data)) as [[info |] | e]; cbn.
    + eexists. split; [reflexivity |]. cbn. split; [| repeat split].
      rewrite Hrows. now apply update_address_fresh.
    + exists w. split; [reflexivity |]. split; [| repeat split]. now rewrite Hrows.
    + eexists. split; [reflexivity |]. cbn. split; [| repeat split]. now rewrite Hrows.
  - exists w. split; [reflexivity |]. cbn. split; [| repeat split]. now rewrite Hrows.
Qed.

(** A call for a known device comes down to [check_geofences] in a world
    where the sample is saved and the device was seen. *)
Lemma process_location_known (rt : Runtime) (device_id : string)
    (location_data : LocationCreate.t) (device : Device.t) (w : World) :
  scalar_one_or_none
    (filter (fun d => String.eqb (Device.device_id d) device_id) (devices w))
  = Ok (Some device) ->
  exists w_mid,
    process_location rt device_id location_data w
    = check_geofences rt (Device.id device)
        (LocationCreate.latitude location_data)
        (LocationCreate.longitude location_data) w_mid
    /\ locations w_mid = locations w ++ [saved_location rt w device location_data]
    /\ devices w_mid
       = map (fun d =>
                if String.eqb (Device.device_id d) device_id
                then Device.mk (Device.id d) (Device.device_id d) (Device.fcm_token d)
                       (Device.apns_token d) (Device.telegram_chat_id d)
                       (Some (clock rt (clock_reads w)))
                else d) (devices w)
    /\ geofences w_mid = geofences w
    /\ device_geofences w_mid = device_geofences w
    /\ notifications w_mid = notifications w
    /\ celery_queue w_mid = celery_queue w.
Proof.
  intros Hdev.
  unfold process_location. unfold bind at 1.
  rewrite read_device_by_device_id, Hdev.
  unfold bind at 1. unfold DeviceRepository.update_last_seen, bind at 1.
  unfold datetime_now, modify.
  unfold bind at 1. unfold LocationRepository.create.
  unfold bind at 1. unfold get_world. unfold bind at 1. unfold modify, ret.
  cbv beta iota.
  unfold bind at 1.
  match goal with
  | |- context [reverse_geocode_location rt ?loc ?d ?w0] =>
      destruct (@reverse_geocode_location_spec rt loc d (locations w) w0
                  eq_refl eq_refl eq_refl eq_refl eq_refl)
        as (w2 & Hrun2 & Hloc2 & Hd2 & Hg2 & Hdg2 & Hn2 & Hq2)
  end.
  rewrite Hrun2. unfold bind at 1.
  match goal with
  | |- context [try_except (KafkaProducer.send_location_event rt ?i ?l ?t) ?h] =>
      destruct (publish_location_event_frame rt i l t w2)
        as (w3 & Hrun3 & Hd3 & Hg3 & Hdg3 & Hl3 & Hn3 & Hq3)
  end.
  rewrite Hrun3.
  exists w3. split; [reflexivity |].
  rewrite Hl3, Hd3, Hg3, Hdg3, Hn3, Hq3, Hloc2, Hd2, Hg2, Hdg2, Hn2, Hq2.
  cbn. repeat split.
  unfold saved_location. destruct (geocoded_address rt location_data) as [[a c] co].
  reflexivity.
Qed.

(** X12. [process_location] for a known device saves the sample before it
    evaluates anything: whatever the call then returns or raises, the
    location table has gained exactly one row, with the device's id, the
    sample's coordinates and timestamp and, when a Google Maps client
    answered, its address; the device's [last_seen] is the first clock
    reading of the call; and the geofence table is as before.  A failure
    of the location event or of the geocoding never reaches the caller:
    the call returns what [check_geofences] returns. *)
Theorem process_location_saves_sample :
  forall (rt : Runtime) (device_id : string) (location_data : LocationCreate.t)
         (device : Device.t) (w : World),
    scalar_one_or_none
      (filter (fun d => String.eqb (Device.device_id d) device_id) (devices w))
    = Ok (Some device) ->
    let run := process_location rt device_id location_data w in
    let saved := saved_location rt w device location_data in
    (exists w_mid,
        run = check_geofences rt (Device.id device)
                (LocationCreate.latitude location_data)
                (LocationCreate.longitude location_data) w_mid
        /\ device_geofences w_mid = device_geofences w
        /\ notifications w_mid = notifications w
        /\ celery_queue w_mid = celery_queue w)
    /\ locations (snd run) = locations w ++ [saved]
    /\ Location.device_id saved = Device.id device
    /\ Location.latitude saved = LocationCreate.latitude location_data
    /\ Location.longitude saved = LocationCreate.longitude location_data
    /\ Location.timestamp saved = LocationCreate.timestamp location_data
    /\ (google_maps_client rt = false -> Location.address saved = None)
    /\ devices (snd run)
       = map (fun d =>
                if String.eqb (Device.device_id d) device_id
                then Device.mk (Device.id d) (Device.device_id d) (Device.fcm_token d)
                       (Device.apns_token d) (Device.telegram_chat_id d)
                       (Some (clock rt (clock_reads w)))
                else d) (devices w)
    /\ geofences (snd run) = geofences w.
Proof.
  intros rt device_id location_data device w Hdev run saved. subst run saved.
  destruct (@process_location_known rt device_id location_data device w Hdev)
    as (w_mid & -> & Hl & Hd & Hg & Hdg & Hn & Hq).
  pose proof (check_geofences_tables_kept rt (Device.id device)
                (LocationCreate.latitude location_data)
                (LocationCreate.longitude location_data) w_mid)
    as (Hd' & Hg' & Hl' & _).
  split; [exists w_mid; auto |].
  rewrite Hl', Hd', Hg', Hl, Hd, Hg.
  unfold saved_location, geocoded_address.
  destruct (google_maps_client rt);
    [destruct (google_maps_reverse_geocode rt _ _) as [[info |] | e] |];
    cbn; repeat split; intros; discriminate.
Qed.

(** X12 at work: the phone reports a position outside its rectangle. *)
Lemma process_location_saves_sample_witness :
  let w := scenario_world [rectangle_fence 10 "Home" true true]
                          [association 1 10 false None] in
  let run := process_location scenario_runtime "dev-1" (sample "dev-1" 0 0 100%Z) w in
  map Location.timestamp (locations (snd run)) = [100%Z]
  /\ map Device.last_seen (devices (snd run)) = [Some 1000%Z].
Proof.
  intros w run.
  destruct (@process_location_saves_sample scenario_runtime "dev-1"
              (sample "dev-1" 0 0 100%Z) phone w eq_refl)
    as (_ & Hl & _ & _ & _ & _ & _ & Hd & _).
  subst run. rewrite Hl, Hd. split; reflexivity.
Defined.

(** ** The location endpoint ([routes/geolocation.py], lines 105-120) *)

Lemma read_latest (w : World) (device_db_id : Z) :
  LocationRepository.read_latest_by_device_id device_db_id w
  = (Ok (LocationRepository.latest
           (filter (fun l => Z.eqb (Location.device_id l) device_db_id) (locations w))),
     w).
Proof. reflexivity. Qed.

Lemma latest_is_greatest (rows : list Location.t) :
  rows <> [] ->
  exists m, LocationRepository.latest rows = Some m
            /\ In m rows
            /\ forall l, In l rows -> (Location.timestamp l <= Location.timestamp m)%Z.
Proof.
  induction rows as [| a rows IH]; intros Hne; [contradiction |].
  cbn [LocationRepository.latest].
  destruct rows as [| b rows].
  - exists a. cbn. split; [reflexivity |]. split; [now left |].
    intros l [<- | []]. lia.
  - destruct IH as (m & -> & Hin & Hmax); [discriminate |].
    destruct (Z.ltb (Location.timestamp a) (Location.timestamp m)) eqn:E.
    + apply Z.ltb_lt in E. exists m. split; [reflexivity |]. split; [now right |].
      intros l [<- | Hl]; [lia | now apply Hmax].
    + apply Z.ltb_ge in E. exists a. split; [reflexivity |]. split; [now left |].
      intros l [<- | Hl]; [lia | specialize (Hmax l Hl); lia].
Qed.

(** X13. Posting a location for a device id that resolves to no device
    ends in [HTTPException] with status 500 and detail "Failed to create
    location" (not a 404): [process_location] returns normally, the
    endpoint then looks the device up itself and finds none.  No location
    is saved and no device, association or event is written. *)
Theorem create_location_unknown_device :
  forall (rt : Runtime) (location_data : LocationCreate.t) (w : World),
    filter (fun d => String.eqb (Device.device_id d)
                       (LocationCreate.device_id location_data)) (devices w) = [] ->
    exists w',
      create_location rt location_data w
      = (HTTPException 500 "Failed to create location", w')
      /\ locations w' = locations w
      /\ devices w' = devices w
      /\ device_geofences w' = device_geofences w
      /\ kafka_topic w' = kafka_topic w.
Proof.
  intros rt location_data w Hnone.
  unfold create_location, process_location, bind.
  rewrite read_device_by_device_id, Hnone. cbn [scalar_one_or_none].
  unfold logger, modify. rewrite read_device_by_device_id.
  cbn [devices set_log]. rewrite Hnone. cbn.
  eexists. split; [reflexivity |]. repeat split.
Qed.


(** X13 at work. *)
Lemma create_location_unknown_device_witness :
  let w := scenario_world [rectangle_fence 10 "Home" true true]
                          [association 1 10 false None] in
  exists w',
    create_location scenario_runtime (sample "ghost" 0 0 100%Z) w
    = (HTTPException 500 "Failed to create location", w')
    /\ locations w' = [].
Proof.
  intros w.
  destruct (@create_location_unknown_device scenario_runtime
              (sample "ghost" 0 0 100%Z) w eq_refl)
    as (w' & Hrun & Hl & _).
  exists w'. split; [exact Hrun | exact Hl].
Defined.

Lemma create_location_latest (rt : Runtime) (location_data : LocationCreate.t)
    (device : Device.t) (w w1 : World) :
  scalar_one_or_none
    (filter (fun d => String.eqb (Device.device_id d)
                        (LocationCreate.device_id location_data)) (devices w))
  = Ok (Some device) ->
  process_location rt (LocationCreate.device_id location_data) location_data w
  = (Ok tt, w1) ->
  let saved := saved_location rt w device location_data in
  exists body,
    create_location rt location_data w = (Response 201 body, w1)
    /\ In body (locations w ++ [saved])
    /\ Location.device_id body = Device.id device
    /\ (forall l, In l (locations w ++ [saved]) ->
                  Location.device_id l = Device.id device ->
                  (Location.timestamp l <= Location.timestamp body)%Z)
    /\ (forall old, In old (locations w) ->
                    Location.device_id old = Device.id device ->
                    (LocationCreate.timestamp location_data
                     < Location.timestamp old)%Z ->
                    body <> saved).
Proof.
  intros Hdev Hrun saved.
  pose proof (@process_location_known rt (LocationCreate.device_id location_data)
                location_data device w Hdev)
    as (w_mid & Heq & Hl & Hd & _).
  pose proof (check_geofences_tables_kept rt (Device.id device)
                (LocationCreate.latitude location_data)
                (LocationCreate.longitude location_data) w_mid)
    as (Hd' & _ & Hl' & _).
  rewrite <- Heq, Hrun in Hd', Hl'. cbn [snd] in Hd', Hl'.
  rewrite Hl in Hl'. rewrite Hd in Hd'.
  unfold create_location. rewrite Hrun. rewrite read_device_by_device_id, Hd'.
  rewrite filter_map_same_test
    by (intros d; destruct (String.eqb (Device.device_id d) _) eqn:E; cbn; now rewrite ?E).
  destruct (filter (fun d => String.eqb (Device.device_id d)
                               (LocationCreate.device_id location_data)) (devices w))
    as [| d0 [| d1 rest]] eqn:Hf; cbn in Hdev; try discriminate.
  injection Hdev as ->.
  assert (Hmatch : String.eqb (Device.device_id device)
                     (LocationCreate.device_id location_data) = true).
  { assert (Hin : In device (filter (fun d => String.eqb (Device.device_id d)
                                       (LocationCreate.device_id location_data))
                               (devices w))) by (rewrite Hf; now left).
    now apply filter_In in Hin. }
  cbn [map scalar_one_or_none]. rewrite Hmatch. cbn [Device.id].
  rewrite read_latest, Hl'.
  assert (Hsaved : Location.device_id saved = Device.id device).
  { subst saved. unfold saved_location.
    now destruct (geocoded_address rt location_data) as [[a c] co]. }
  assert (Hts : Location.timestamp saved = LocationCreate.timestamp location_data).
  { subst saved. unfold saved_location.
    now destruct (geocoded_address rt location_data) as [[a c] co]. }
  fold saved.
  destruct (@latest_is_greatest
              (filter (fun l => Z.eqb (Location.device_id l) (Device.id device))
                 (locations w ++ [saved])))
    as (m & -> & Hin & Hmax).
  { rewrite filter_app. cbn [filter]. rewrite Hsaved, Z.eqb_refl.
    intros H. apply app_eq_nil in H. destruct H as [_ H]. discriminate. }
  apply filter_In in Hin. destruct Hin as [Hin Hmdev]. apply Z.eqb_eq in Hmdev.
  exists m. split; [reflexivity |]. split; [exact Hin |]. split; [exact Hmdev |].
  assert (Hle : forall l, In l (locations w ++ [saved]) ->
                          Location.device_id l = Device.id device ->
                          (Location.timestamp l <= Location.timestamp m)%Z).
  { intros l Hl0 Hldev. apply Hmax. apply filter_In. split; [exact Hl0 |].
    now apply Z.eqb_eq. }
  split; [exact Hle |].
  intros old Hold Holddev Hlater Heq'. subst m.
  specialize (Hle old (in_or_app _ _ _ (or_introl Hold)) Holddev). lia.
Qed.


(** X14. Posting a location for a known device: the sample is saved
    whatever the evaluation does.  When the evaluation raises, the
    endpoint fails with that exception, the sample staying saved.  When it
    returns, the endpoint answers 201 with the device's location of
    greatest timestamp, the saved sample included; so when the device
    already has a location stamped later than the sample, the answer is not
    the sample that was just posted. *)
Theorem create_location_known_device :
  forall (rt : Runtime) (location_data : LocationCreate.t) (device : Device.t)
         (w w1 : World) (r : PyResult unit),
    scalar_one_or_none
      (filter (fun d => String.eqb (Device.device_id d)
                          (LocationCreate.device_id location_data)) (devices w))
    = Ok (Some device) ->
    process_location rt (LocationCreate.device_id location_data) location_data w
    = (r, w1) ->
    let saved := saved_location rt w device location_data in
    locations w1 = locations w ++ [saved]
    /\ match r with
       | Raise e => create_location rt location_data w = (Unhandled e, w1)
       | Ok _ =>
           exists body,
             create_location rt location_data w = (Response 201 body, w1)
             /\ In body (locations w1)
             /\ Location.device_id body = Device.id device
             /\ (forall l, In l (locations w1) ->
                           Location.device_id l = Device.id device ->
                           (Location.timestamp l <= Location.timestamp body)%Z)
             /\ (forall old, In old (locations w) ->
                             Location.device_id old = Device.id device ->
                             (LocationCreate.timestamp location_data
                              < Location.timestamp old)%Z ->
                             body <> saved)
       end.
Proof.
  intros rt location_data device w w1 r Hdev Hrun saved.
  assert (Hl : locations w1 = locations w ++ [saved]).
  { pose proof (@process_location_known rt (LocationCreate.device_id location_data)
                  location_data device w Hdev)
      as (w_mid & Heq & Hl & _).
    pose proof (check_geofences_tables_kept rt (Device.id device)
                  (LocationCreate.latitude location_data)
                  (LocationCreate.longitude location_data) w_mid)
      as (_ & _ & Hl' & _).
    rewrite <- Heq, Hrun in Hl'. cbn [snd] in Hl'. now rewrite Hl'. }
  split; [exact Hl |].
  destruct r as [[] | e].
  - rewrite Hl. now apply create_location_latest.
  - unfold create_location. now rewrite Hrun.
Qed.

(** X14 at work: the phone has a location stamped 500 and posts a sample
    stamped 100; the answer is the location stamped 500. *)
Lemma create_location_known_device_witness :
  let earlier :=
    Location.mk 1 1 (425 # 10) (745 # 10) None None None None None None None 500%Z in
  let w := set_locations (fun _ => [earlier])
             (scenario_world [rectangle_fence 10 "Home" true true]
                             [association 1 10 false None]) in
  let location_data := sample "dev-1" 0 0 100%Z in
  exists body w1,
    create_location scenario_runtime location_data w = (Response 201 body, w1)
    /\ map Location.timestamp (locations w1) = [500%Z; 100%Z]
    /\ Location.timestamp body = 500%Z.
Proof.
  intros earlier w location_data.
  destruct (@create_location_known_device scenario_runtime location_data phone w
              (snd (process_location scenario_runtime "dev-1" location_data w))
              (Ok tt) eq_refl eq_refl)
    as (Hl & body & Hrun & _ & _ & Hmax & _).
  exists body, (snd (process_location scenario_runtime "dev-1" location_data w)).
  split; [exact Hrun |]. split; [reflexivity |].
  unfold create_location in Hrun. vm_compute in Hrun. now injection Hrun as <-.
Defined.
